(** * Brent oil dashboard: event correlation, impact table, change-point chart
      and volatility regimes

    A shallow embedding of the dashboard front end
    ([frontend/src/components/*.js], [frontend/src/services/api.js]) and the
    properties its specification states about it.

    Conventions of the embedding.
    - A date is a [Z], the milliseconds of the moment on the local clock
      ([diff] compensates the difference of the two UTC offsets);
      [moment(a).diff(moment(b), 'days')] is the difference in whole days,
      truncated toward zero.
    - Numbers that the code only compares, negates or orders
      ([percent_change], [probability], the prices of an impact record) are
      rationals: every finite double is one, and on finite doubles
      comparison, [Math.abs] and the sign of a difference are exact.
    - Where the value of an arithmetic result is kept, the code is embedded
      over binary64 floats ([PrimFloat]), the arithmetic of a JavaScript
      number: the volatilities of an impact record, whose difference is the
      [volatilityChange] of a row, and the regime thresholds, where the
      rounding of the products by [1.2] and [0.8] decides the boundary.
    - A property read from a JSON record is absent ([undefined]), [null] or a
      number.
    - The Series Preprocessor and the Posterior Summarizer run on the server,
      whose code is not part of these sources; the two modules at the end of
      the definitions follow the specification instead. *)

From Stdlib Require Import ZArith QArith Qabs Qminmax Lia Lqa Bool String List.
From Stdlib Require Import Sorting.Sorted Sorting.Permutation.
From Stdlib Require Import Floats.PrimFloat Floats.SpecFloat Floats.FloatOps Floats.FloatAxioms.
From Stdlib Require Import Reals Lra.
Import ListNotations.

Set Warnings "-inexact-float".

Local Open Scope Z_scope.

(** ** JavaScript values and operators *)

Module JS.

(** What a property access yields on a record parsed from JSON. *)
Inductive value : Type :=
| Undefined
| Null
| Num (q : Q).

(** A property whose number enters arithmetic that rounds: the number is
    the binary64 it was parsed to. *)
Inductive value64 : Type :=
| Undefined64
| Null64
| Num64 (x : float).

(** A number computed by arithmetic: a binary64, [NaN] and the infinities
    included. *)
Definition number : Type := float.

(** ToNumber: [undefined] is [NaN], [null] is [0]. *)
Definition toNumber (v : value64) : number :=
  match v with
  | Undefined64 => PrimFloat.nan
  | Null64 => 0%float
  | Num64 x => x
  end.

(** [a - b] on numbers: the difference rounded to the nearest binary64;
    [NaN] is absorbing. *)
Definition sub (a b : number) : number := (a - b)%float.

(** A number as a condition: [0], [-0] and [NaN] are falsy. *)
Definition truthy (x : number) : bool :=
  negb (PrimFloat.eqb x 0 || PrimFloat.is_nan x).

(** [x || 0] where [x] is a number. *)
Definition numOrZero (x : number) : number :=
  if truthy x then x else 0%float.

(** [v || 0] where [v] is a property: [undefined], [null], [0] and [NaN]
    are falsy. *)
Definition orZero64 (v : value64) : number :=
  match v with
  | Num64 x => numOrZero x
  | Undefined64 | Null64 => 0%float
  end.

(** [v || 0] where [v] is a property: [undefined], [null] and [0] are falsy. *)
Definition orZero (v : value) : Q :=
  match v with
  | Num q => if Qeq_bool q 0 then 0%Q else q
  | Undefined | Null => 0%Q
  end.

(** [v.toFixed(digits)]: a method call, so a [TypeError] when [v] is
    [undefined] or [null].  The digits are not rendered: the result keeps
    the number and the precision asked for. *)
Inductive result (A : Type) : Type :=
| Ok (a : A)
| TypeError.
Arguments Ok {A} a.
Arguments TypeError {A}.

Record Fixed : Type := { digits : nat; shown : Q }.

Definition toFixed (v : value) (d : nat) : result Fixed :=
  match v with
  | Num q => Ok {| digits := d; shown := q |}
  | Undefined | Null => TypeError
  end.

(** [x.toFixed(digits)] where [x] is the result of arithmetic: a number,
    so the call does not throw. *)
Record Fixed64 : Type := { digits64 : nat; shown64 : number }.

Definition toFixed64 (x : number) (d : nat) : Fixed64 :=
  {| digits64 := d; shown64 := x |}.

(** [Array.prototype.sort(cmp)] is a stable sort (ECMAScript 2019): [a]
    goes before [b] when [cmp(a, b) < 0], after it when [cmp(a, b) > 0],
    and elements that compare equal keep their order.  Every stable sort
    returns the same array for a consistent comparator; this one inserts
    from the right. *)
Section Sort.
Context {A : Type} (cmp : A -> A -> Q).

Fixpoint insert (x : A) (l : list A) : list A :=
  match l with
  | [] => [x]
  | y :: l' =>
      if Qle_bool (cmp x y) 0 then x :: y :: l' else y :: insert x l'
  end.

Definition sort (l : list A) : list A := fold_right insert [] l.
End Sort.

(** [l.map((x, index) => f x index)]. *)
Section MapIndex.
Context {A B : Type} (f : A -> nat -> B).

Fixpoint mapFrom (i : nat) (l : list A) : list B :=
  match l with
  | [] => []
  | x :: l' => f x i :: mapFrom (S i) l'
  end.

Definition mapi (l : list A) : list B := mapFrom 0%nat l.
End MapIndex.

End JS.

(** ** moment.js *)

Module Moment.

Definition msPerDay : Z := 86400000.

(** [moment(a).diff(moment(b), 'days')]: [(a - b) / 864e5], truncated
    toward zero. *)
Definition diff_days (a b : Z) : Z := Z.quot (a - b) msPerDay.

(** Midnight of day [n], for writing dates down. *)
Definition day (n : Z) : Z := n * msPerDay.

End Moment.

(** ** Records served by the API *)

Module ChangePoint.
Record t : Type := {
  date : Z;
  probability : Q;
  impact_pct : Q
}.
End ChangePoint.

Module Impact.
Record t : Type := {
  percent_change : JS.value;
  price_change : JS.value;
  price_before : JS.value;
  price_after : JS.value;
  volatility_before : JS.value64;
  volatility_after : JS.value64
}.
End Impact.

Module Event.
Record t : Type := {
  date : Z;
  name : string;
  type : string;
  region : string;
  impact : option Impact.t  (* [None]: no [impact] property (or null) *)
}.

(** [event.impact?.f] *)
Definition impactField (f : Impact.t -> JS.value) (event : t) : JS.value :=
  match impact event with
  | Some i => f i
  | None => JS.Undefined
  end.

(** [event.impact?.f] for the volatilities. *)
Definition impactField64 (f : Impact.t -> JS.value64) (event : t) : JS.value64 :=
  match impact event with
  | Some i => f i
  | None => JS.Undefined64
  end.

(** [event.impact] as a condition: an object is truthy. *)
Definition hasImpact (event : t) : bool :=
  match impact event with
  | Some _ => true
  | None => false
  end.
End Event.

(** ** components/ImpactMetrics.js *)

Module ImpactMetrics.

(** The predicate of [changePoints.find]:
    [Math.abs(moment(cp.date).diff(moment(event.date), 'days')) <= 30]. *)
Definition inWindow (event : Event.t) (cp : ChangePoint.t) : bool :=
  Z.abs (Moment.diff_days (ChangePoint.date cp) (Event.date event)) <=? 30.

(** [changePoints.find(...)]: the first element that satisfies the
    predicate, [undefined] ([None]) when there is none. *)
Definition associatedCP (changePoints : list ChangePoint.t) (event : Event.t)
  : option ChangePoint.t :=
  find (inWindow event) changePoints.

(** One element of [impactData]: the event's own properties ([...event])
    and the six computed ones. *)
Record Row : Type := {
  event : Event.t;
  changePointDetected : bool;
  changePointProbability : option Q;  (* [None] is [null] *)
  impactMagnitude : Q;
  impactAbs : Q;
  volatilityChange : JS.number
}.

(** The callback of [.map]. *)
Definition row (changePoints : list ChangePoint.t) (event : Event.t) : Row :=
  let associated := associatedCP changePoints event in
  {| event := event;
     changePointDetected :=
       match associated with Some _ => true | None => false end;
     changePointProbability :=
       match associated with
       | Some cp =>
           if Qeq_bool (ChangePoint.probability cp) 0 then None
           else Some (ChangePoint.probability cp)
       | None => None
       end;
     impactMagnitude := JS.orZero (Event.impactField Impact.percent_change event);
     impactAbs := JS.orZero (Event.impactField Impact.price_change event);
     volatilityChange :=
       JS.numOrZero
         (JS.sub (JS.toNumber (Event.impactField64 Impact.volatility_after event))
                 (JS.toNumber (Event.impactField64 Impact.volatility_before event)))
  |}.

(** The comparator of [.sort]:
    [Math.abs(b.impactMagnitude) - Math.abs(a.impactMagnitude)]. *)
Definition compare (a b : Row) : Q :=
  (Qabs (impactMagnitude b) - Qabs (impactMagnitude a))%Q.

(** [events.filter(event => event.impact).map(...).sort(...)] *)
Definition impactData (events : list Event.t) (changePoints : list ChangePoint.t)
  : list Row :=
  JS.sort compare (map (row changePoints) (filter Event.hasImpact events)).

(** The cells of one table row that format a number.  The price range cell
    calls [event.impact?.price_before.toFixed(2)] and
    [event.impact?.price_after.toFixed(2)]: the optional chain stops only
    at a missing [impact]. *)
Record Cells : Type := {
  priceAbs : JS.Fixed;
  priceRange : option (JS.Fixed * JS.Fixed);
  percent : JS.Fixed;
  progress : Q;
  volatilityUp : bool;
  volatilityPct : JS.Fixed64;
  badge : option (option JS.Fixed)
}.

(** The cell [$price_before -> $price_after]. *)
Definition priceRangeCell (e : Event.t)
  : JS.result (option (JS.Fixed * JS.Fixed)) :=
  match Event.impact e with
  | None => JS.Ok None
  | Some i =>
      match JS.toFixed (Impact.price_before i) 2,
            JS.toFixed (Impact.price_after i) 2 with
      | JS.Ok b, JS.Ok a => JS.Ok (Some (b, a))
      | _, _ => JS.TypeError
      end
  end.

(** The volatility cell: the arrow is up when [volatilityChange > 0], and
    the number is [(Math.abs(volatilityChange) * 100).toFixed(1)]. *)
Definition volatilityCell (r : Row) : bool * JS.Fixed64 :=
  ((0 <? volatilityChange r)%float,
   JS.toFixed64 (PrimFloat.abs (volatilityChange r) * 100)%float 1).

(** The [<tr>] of one row. *)
Definition renderRow (r : Row) : JS.result Cells :=
  match priceRangeCell (event r) with
  | JS.TypeError => JS.TypeError
  | JS.Ok range =>
      JS.Ok
        {| priceAbs :=
             {| JS.digits := 2;
                JS.shown :=
                  Qabs (JS.orZero (Event.impactField Impact.price_change (event r))) |};
           priceRange := range;
           percent := {| JS.digits := 1; JS.shown := impactMagnitude r |};
           progress := Qmin (Qabs (impactMagnitude r)) 100;
           volatilityUp := fst (volatilityCell r);
           volatilityPct := snd (volatilityCell r);
           badge :=
             if changePointDetected r then
               Some (match changePointProbability r with
                     | Some p => Some {| JS.digits := 0; JS.shown := (p * 100)%Q |}
                     | None => None
                     end)
             else None
        |}
  end.

(** The table body: every row of [impactData] rendered, in order; one
    [TypeError] aborts the render. *)
Fixpoint renderRows (rows : list Row) : JS.result (list Cells) :=
  match rows with
  | [] => JS.Ok []
  | r :: rows' =>
      match renderRow r, renderRows rows' with
      | JS.Ok c, JS.Ok cs => JS.Ok (c :: cs)
      | _, _ => JS.TypeError
      end
  end.

End ImpactMetrics.

(** ** components/EvenTimeline.js *)

Module EventTimeline.

(** [changePoints?.some(cp => Math.abs(moment(cp.date).diff(moment(event.date), 'days')) <= 30)] *)
Definition hasChangePoint (changePoints : list ChangePoint.t) (event : Event.t) : bool :=
  existsb (ImpactMetrics.inWindow event) changePoints.

(** One bubble of the timeline. *)
Record Point : Type := {
  id : nat;
  event : Event.t;
  timestamp : Z;
  impact : Q;
  impactAbs : Q;
  priceBefore : Q;
  priceAfter : Q;
  volatilityBefore : JS.number;
  volatilityAfter : JS.number;
  magnitude : Q;
  size : Q;
  pointHasChangePoint : bool
}.

(** The callback of [.map((event, index) => ...)]. *)
Definition point (changePoints : list ChangePoint.t) (e : Event.t) (index : nat) : Point :=
  let magnitude := Qabs (JS.orZero (Event.impactField Impact.percent_change e)) in
  {| id := index;
     event := e;
     timestamp := Event.date e;
     impact := JS.orZero (Event.impactField Impact.percent_change e);
     impactAbs := JS.orZero (Event.impactField Impact.price_change e);
     priceBefore := JS.orZero (Event.impactField Impact.price_before e);
     priceAfter := JS.orZero (Event.impactField Impact.price_after e);
     volatilityBefore := JS.orZero64 (Event.impactField64 Impact.volatility_before e);
     volatilityAfter := JS.orZero64 (Event.impactField64 Impact.volatility_after e);
     magnitude := magnitude;
     size := Qmin (Qmax (magnitude / 5) 10) 50;
     pointHasChangePoint := hasChangePoint changePoints e
  |}.

(** The comparator [a.timestamp - b.timestamp]. *)
Definition compare (a b : Point) : Q := inject_Z (timestamp a - timestamp b).

Definition processed (events : list Event.t) (changePoints : list ChangePoint.t)
  : list Point :=
  JS.sort compare (JS.mapi (point changePoints) (filter Event.hasImpact events)).

(** The effect on [[events, changePoints]]: [timelineData] is replaced only
    when [events] is not empty. *)
Definition effect (events : list Event.t) (changePoints : list ChangePoint.t)
  (timelineData : list Point) : list Point :=
  match events with
  | [] => timelineData
  | _ :: _ => processed events changePoints
  end.

(** The tooltip formats [priceBefore], [priceAfter] and the two
    volatilities ([(data.volatilityAfter * 100).toFixed(1)] and the same
    for [volatilityBefore]), all of them numbers by the defaults of
    [point]. *)
Definition tooltip (p : Point) : JS.result (list JS.Fixed * list JS.Fixed64) :=
  match JS.toFixed (JS.Num (impact p)) 1, JS.toFixed (JS.Num (impactAbs p)) 2,
        JS.toFixed (JS.Num (priceBefore p)) 2, JS.toFixed (JS.Num (priceAfter p)) 2 with
  | JS.Ok a, JS.Ok b, JS.Ok c, JS.Ok d =>
      JS.Ok ([a; b; c; d],
             [JS.toFixed64 (volatilityAfter p * 100)%float 1;
              JS.toFixed64 (volatilityBefore p * 100)%float 1])
  | _, _, _, _ => JS.TypeError
  end.

End EventTimeline.

(** ** services/api.js, components/EventFilter.js, components/Dashboard.js *)

Module Api.

(** The request [api.get('/change-points', { params: { min_probability } })].
    The interceptor's cache-busting [_t] parameter is left out. *)
Record Request : Type := {
  url : string;
  min_probability : Q
}.

(** What the server answers; [change_points] may be missing. *)
Record Response : Type := {
  change_points : option (list ChangePoint.t)
}.

(** [getChangePoints: (minProbability = 0.8) => ...]; [None] is a call
    without the argument (or with [undefined]). *)
Definition getChangePoints (minProbability : option Q) : Request :=
  {| url := "/change-points"%string;
     min_probability :=
       match minProbability with
       | Some p => p
       | None => 8 # 10
       end |}.

End Api.

Module EventFilter.

(** The values of [probabilityOptions]. *)
Definition probabilityOptions : list Q := [5 # 10; 8 # 10; 9 # 10; 95 # 100].

End EventFilter.

Module Dashboard.

(** [useState(0.8)], the first value of [minProbability]. *)
Definition initialMinProbability : Q := 8 # 10.

End Dashboard.

(** ** components/ChangePointChart.js *)

Module ChangePointChart.

(** One bar: the change point ([...cp]), its formatted probability and its
    rank. *)
Record Bar : Type := {
  cp : ChangePoint.t;
  probabilityValue : JS.Fixed;
  impactUp : bool;
  index : nat
}.

(** The comparator [b.probability - a.probability]. *)
Definition compare (a b : ChangePoint.t) : Q :=
  (ChangePoint.probability b - ChangePoint.probability a)%Q.

Definition bar (c : ChangePoint.t) (i : nat) : Bar :=
  {| cp := c;
     probabilityValue :=
       {| JS.digits := 1; JS.shown := (ChangePoint.probability c * 100)%Q |};
     impactUp := negb (Qle_bool (ChangePoint.impact_pct c) 0);
     index := S i |}.

(** [[...changePoints].sort(...).slice(0, 10).map(...)] *)
Definition sorted (changePoints : list ChangePoint.t) : list Bar :=
  JS.mapi bar (firstn 10 (JS.sort compare changePoints)).

(** The effect on [[changePoints]]: [setChartData] runs only under
    [changePoints && changePoints.length > 0]. *)
Definition effect (changePoints : list ChangePoint.t) (chartData : list Bar)
  : list Bar :=
  match changePoints with
  | [] => chartData
  | _ :: _ => sorted changePoints
  end.

(** [chartData] after the component has received the lists of [history]
    one after the other; it starts empty ([useState([])]). *)
Definition chartAfter (history : list (list ChangePoint.t)) : list Bar :=
  fold_left (fun chartData changePoints => effect changePoints chartData) history [].

End ChangePointChart.

(** ** components/VolatilityChart.js *)

Module VolatilityChart.

Inductive Regime : Type := High | Low | Normal.

(** A number as a condition: [0] and [NaN] are falsy. *)
Definition truthy (x : float) : bool :=
  negb (PrimFloat.eqb x 0 || PrimFloat.is_nan x).

(** The ternary used for a year and for the current value:
    [value > avg * 1.2 ? 'High' : value < avg * 0.8 ? 'Low' : 'Normal'],
    in binary64 arithmetic ([x > y] is [y < x]). *)
Definition regime (value avg : float) : Regime :=
  if (avg * 1.2 <? value)%float then High
  else if (value <? avg * 0.8)%float then Low
  else Normal.

(** [volatilityData]; a missing number is [NaN], which is what an
    [undefined] operand becomes in [*], [/], [<] and [>]. *)
Record VolatilityData : Type := {
  years : list Z;
  values : list float;
  historical_avg_volatility : float;
  current_volatility : float
}.

Record YearPoint : Type := {
  year : Z;
  volatilityValue : float;
  yearRegime : Regime
}.

(** The callback of [years.map((year, index) => ...)]; [values[index]]
    past the end of [values] is [undefined]. *)
Definition yearPoint (data : VolatilityData) (y : Z) (index : nat) : YearPoint :=
  {| year := y;
     volatilityValue := nth index (values data) PrimFloat.nan;
     yearRegime :=
       regime (nth index (values data) PrimFloat.nan) (historical_avg_volatility data) |}.

Definition formatted (data : VolatilityData) : list YearPoint :=
  JS.mapi (yearPoint data) (years data).

Record CurrentRegime : Type := {
  ratio : float;  (* shown as [(current / avg).toFixed(2)] *)
  label : Regime
}.

(** [setVolatilityRegime] runs only under
    [volatilityData.current_volatility && volatilityData.historical_avg_volatility];
    otherwise the state keeps what it held. *)
Definition currentRegime (data : VolatilityData) (previous : option CurrentRegime)
  : option CurrentRegime :=
  let current := current_volatility data in
  let avg := historical_avg_volatility data in
  if truthy current && truthy avg then
    Some {| ratio := (current / avg)%float; label := regime current avg |}
  else previous.

(** The rule of the specification, in the same arithmetic: the ratio
    [value / baseline] is compared with [1.2] and [0.8]. *)
Definition labelByRatio (value baseline : float) : Regime :=
  let r := (value / baseline)%float in
  if (1.2 <? r)%float then High
  else if (r <? 0.8)%float then Low
  else Normal.

End VolatilityChart.

(** ** Comparisons of numbers *)

Module Rel.

(** [a > b], [a < b] and [a >= b] on numbers that are not [NaN]. *)
Definition gt (a b : Q) : bool := negb (Qle_bool a b).
Definition lt (a b : Q) : bool := negb (Qle_bool b a).
Definition ge (a b : Q) : bool := Qle_bool b a.

End Rel.

(** ** components/ImpactMetrics.js, the colour of a row *)

Module ImpactColor.

(** The Bootstrap variants that [getImpactColor] returns. *)
Inductive Variant : Type := success | info | danger | warning | secondary.

(** [getImpactColor(percentChange)] *)
Definition getImpactColor (percentChange : Q) : Variant :=
  if Rel.gt percentChange 20 then success
  else if Rel.gt percentChange 5 then info
  else if Rel.lt percentChange (-20) then danger
  else if Rel.lt percentChange (-5) then warning
  else secondary.

(** The badge and the progress bar of a row have the colour
    [getImpactColor(event.impactMagnitude)]. *)
Definition badge (r : ImpactMetrics.Row) : Variant :=
  getImpactColor (ImpactMetrics.impactMagnitude r).

End ImpactColor.

(** ** components/ChangePointChart.js, colours, details and summary *)

Module ChangePointDetails.

(** [getBarColor(entry)]; [selected] is [selectedCP?.date], [None] while
    nothing is selected. *)
Definition getBarColor (selected : option Z) (entry : ChangePoint.t) : string :=
  if match selected with
     | Some d => d =? ChangePoint.date entry
     | None => false
     end
  then "#C44E52"
  else if Rel.gt (ChangePoint.impact_pct entry) 20 then "#28a745"
  else if Rel.gt (ChangePoint.impact_pct entry) 5 then "#5cb85c"
  else if Rel.lt (ChangePoint.impact_pct entry) (-20) then "#dc3545"
  else if Rel.lt (ChangePoint.impact_pct entry) (-5) then "#f0ad4e"
  else "#6c757d".

(** The confidence badge of a list item:
    [cp.probability > 0.9 ? 'success' : cp.probability > 0.8 ? 'warning' : 'secondary']. *)
Definition confidence (cp : ChangePoint.t) : ImpactColor.Variant :=
  if Rel.gt (ChangePoint.probability cp) (9 # 10) then ImpactColor.success
  else if Rel.gt (ChangePoint.probability cp) (8 # 10) then ImpactColor.warning
  else ImpactColor.secondary.

(** The items of the list under the chart: [changePoints.slice(0, 5)]. *)
Definition details (changePoints : list ChangePoint.t) : list ChangePoint.t :=
  firstn 5 changePoints.

(** [changePoints.length] and
    [changePoints.filter(cp => cp.probability >= 0.9).length]. *)
Definition totalDetected (changePoints : list ChangePoint.t) : nat :=
  List.length changePoints.

Definition highConfidence (changePoints : list ChangePoint.t) : nat :=
  List.length
    (filter (fun cp => Rel.ge (ChangePoint.probability cp) (9 # 10)) changePoints).

End ChangePointDetails.

(** ** components/EvenTimeline.js, the state and the summary by period *)

Module TimelineSummary.

(** [timelineData] after the component has received the pairs of
    [history] one after the other; it starts empty. *)
Definition timelineAfter (history : list (list Event.t * list ChangePoint.t))
  : list EventTimeline.Point :=
  fold_left
    (fun timelineData props => EventTimeline.effect (fst props) (snd props) timelineData)
    history [].

Section Years.
(** [moment(date).year()], the calendar year of a date. *)
Variable year : Z -> Z.

(** [e.year] of a point. *)
Definition pointYear (e : EventTimeline.Point) : Z :=
  year (EventTimeline.timestamp e).

Definition decades : list Z := [1990; 2000; 2010; 2020].

(** [timelineData.filter(e => e.year >= decade && e.year < decade + 10)] *)
Definition decadeEvents (timelineData : list EventTimeline.Point) (decade : Z)
  : list EventTimeline.Point :=
  filter (fun e => (decade <=? pointYear e) && (pointYear e <? decade + 10))
         timelineData.

(** One card of the summary; [avgImpact] is the sum of the impacts over
    their number (rounded, in the code). *)
Record Card : Type := {
  decade : Z;
  count : nat;
  avgImpact : Q;
  positiveEvents : nat;
  negativeEvents : nat
}.

(** The callback of [[1990, 2000, 2010, 2020].map]; [None] is the [null]
    returned for a decade without events. *)
Definition card (timelineData : list EventTimeline.Point) (d : Z) : option Card :=
  let decadeEvents := decadeEvents timelineData d in
  match decadeEvents with
  | [] => None
  | _ :: _ =>
      Some {| decade := d;
              count := List.length decadeEvents;
              avgImpact :=
                (fold_left (fun sum e => sum + EventTimeline.impact e) decadeEvents 0
                 / inject_Z (Z.of_nat (List.length decadeEvents)))%Q;
              positiveEvents :=
                List.length (filter (fun e => Rel.gt (EventTimeline.impact e) 0) decadeEvents);
              negativeEvents :=
                List.length (filter (fun e => Rel.lt (EventTimeline.impact e) 0) decadeEvents)
           |}
  end.

Definition cards (timelineData : list EventTimeline.Point) : list (option Card) :=
  map (card timelineData) decades.
End Years.

End TimelineSummary.

(** ** components/VolatilityChart.js, the event markers and the brush *)

Module VolatilityMarkers.

Record Marker : Type := {
  markerYear : Z;            (* the property [date] of a marker *)
  markerName : string;
  volatilityChange : JS.number
}.

Section Years.
(** [moment(date).year()], the calendar year of a date. *)
Variable year : Z -> Z.

(** The callback of [.map] in [getEventMarkers]. *)
Definition marker (e : Event.t) : Marker :=
  {| markerYear := year (Event.date e);
     markerName := Event.name e;
     volatilityChange :=
       JS.numOrZero
         (JS.sub (JS.toNumber (Event.impactField64 Impact.volatility_after e))
                 (JS.toNumber (Event.impactField64 Impact.volatility_before e))) |}.

(** [getEventMarkers()]; every event of the embedding has a [date], so the
    first filter keeps the events with an impact record. *)
Definition getEventMarkers (events : list Event.t) : list Marker :=
  match events with
  | [] => []
  | _ :: _ =>
      filter (fun m => (1987 <=? markerYear m) && (markerYear m <=? 2022))
             (map marker (filter Event.hasImpact events))
  end.
End Years.

(** The first year the brush shows: [Math.max(0, chartData.length - 10)]. *)
Definition startIndex (chartData : list VolatilityChart.YearPoint) : Z :=
  Z.max 0 (Z.of_nat (List.length chartData) - 10).

End VolatilityMarkers.

(** ** components/PriceChart.js *)

Module PriceChart.

Section Dates.
(** The dates as the API serves them, and [===] on them. *)
Context {D : Type} (same : D -> D -> bool).

(** The [data] property; a missing array is [None]. *)
Record Data : Type := {
  dates : option (list D);
  prices : option (list JS.value);
  ma_30d : option (list JS.value);
  returns : option (list JS.value)
}.

(** [array[index]] and [array?.[index]] *)
Definition at_ (array : list JS.value) (index : nat) : JS.value :=
  nth index array JS.Undefined.

Definition optAt (array : option (list JS.value)) (index : nat) : JS.value :=
  match array with
  | Some a => at_ a index
  | None => JS.Undefined
  end.

(** A point of the chart, without its [formattedDate]. *)
Record Point : Type := {
  date : D;
  price : JS.value;
  ma30 : JS.value;
  pointReturns : JS.value
}.

(** The effect on [[data]]: under [data?.dates && data?.prices] (an empty
    array is truthy) the chart data is rebuilt, one point for each date. *)
Definition effect (data : option Data) (chartData : list Point) : list Point :=
  match data with
  | Some d =>
      match dates d, prices d with
      | Some ds, Some ps =>
          JS.mapi (fun x index =>
                     {| date := x;
                        price := at_ ps index;
                        ma30 := optAt (ma_30d d) index;
                        pointReturns := optAt (returns d) index |}) ds
      | _, _ => chartData
      end
  | None => chartData
  end.

(** [dates.indexOf(x)]; [None] is [-1]. *)
Fixpoint indexOf (x : D) (ds : list D) : option nat :=
  match ds with
  | [] => None
  | y :: ds' =>
      if same y x then Some 0%nat
      else match indexOf x ds' with
           | Some i => Some (S i)
           | None => None
           end
  end.

(** The height of an event's dot:
    [data.prices[data.dates.indexOf(event.date)] || 0].  Neither [data] nor
    its two arrays are guarded here. *)
Definition dotY (data : option Data) (eventDate : D) : JS.result Q :=
  match data with
  | Some d =>
      match prices d, dates d with
      | Some ps, Some ds =>
          JS.Ok (JS.orZero
                   match indexOf eventDate ds with
                   | Some i => at_ ps i
                   | None => JS.Undefined
                   end)
      | _, _ => JS.TypeError
      end
  | None => JS.TypeError
  end.
End Dates.

End PriceChart.

(** ** components/EventFilter.js, the type select *)

Module EventTypeSelect.

(** An element of [eventTypes]. *)
Record EventType : Type := { name : string; count : nat }.

(** The label of an option: ["All Event Types"] or ["name (count)"]. *)
Inductive Label : Type :=
| AllEventTypes
| Counted (n : string) (c : nat).

Record Choice : Type := { value : string; label : Label }.

Definition typeOptions (eventTypes : list EventType) : list Choice :=
  {| value := "all"; label := AllEventTypes |}
    :: map (fun t => {| value := name t; label := Counted (name t) (count t) |})
           eventTypes.

(** [handleTypeChange(selected)]: what goes to [onTypeChange],
    [selected?.value || 'all']. *)
Definition handleTypeChange (selected : option Choice) : string :=
  match selected with
  | Some o => if String.eqb (value o) "" then "all" else value o
  | None => "all"
  end.

(** The option the select shows:
    [typeOptions.find(opt => opt.value === selectedType)]. *)
Definition shown (eventTypes : list EventType) (selectedType : string)
  : option Choice :=
  find (fun opt => String.eqb (value opt) selectedType) (typeOptions eventTypes).

End EventTypeSelect.

(** ** components/Dashboard.js, the state and the two fetches *)

Module DashboardState.

(** How a request ends. *)
Inductive settled (A : Type) : Type :=
| Resolved (a : A)
| Rejected.
Arguments Resolved {A} a.
Arguments Rejected {A}.

Section Types.
(** What the price, summary and volatility endpoints answer, and what a
    click highlights; the dashboard stores them as they come. *)
Variables PriceData Summary VolatilityData Highlight : Type.

Record DateRange : Type := { start : string; end_ : string }.

Record State : Type := {
  loading : bool;
  error : option string;
  priceData : option PriceData;
  events : list Event.t;
  changePoints : list ChangePoint.t;
  summary : option Summary;
  volatilityData : option VolatilityData;
  eventTypes : list EventTypeSelect.EventType;
  dateRange : DateRange;
  selectedEventType : string;
  minProbability : Q;
  highlightedEvent : option Highlight
}.

(** [useState] of every slice. *)
Definition initial : State :=
  {| loading := true;
     error := None;
     priceData := None;
     events := [];
     changePoints := [];
     summary := None;
     volatilityData := None;
     eventTypes := [];
     dateRange := {| start := "1987-05-20"; end_ := "2022-09-30" |};
     selectedEventType := "all";
     minProbability := Dashboard.initialMinProbability;
     highlightedEvent := None |}.

(** The six endpoints of [services/api.js], each answering with
    [response.data], an object, or rejecting.  [None] in an answer is a
    missing [types], [events] or [change_points]. *)
Record Server : Type := {
  getSummary : settled Summary;
  getEventTypes : settled (option (list EventTypeSelect.EventType));
  getPrices : string -> string -> settled PriceData;
  getEvents : string -> string -> string -> settled (option (list Event.t));
  getChangePoints : Api.Request -> settled Api.Response;
  getVolatility : settled VolatilityData
}.

(** [x || []] *)
Definition orEmpty {A : Type} (x : option (list A)) : list A :=
  match x with
  | Some l => l
  | None => []
  end.

(** The state when one run of [fetchAllData] is over: [Promise.all] resolves
    when the six requests do and rejects when one does; [finally] clears
    [loading]. *)
Definition fetchAllData (srv : Server) (st : State) : State :=
  match getSummary srv,
        getEventTypes srv,
        getPrices srv (start (dateRange st)) (end_ (dateRange st)),
        getEvents srv (selectedEventType st) (start (dateRange st)) (end_ (dateRange st)),
        getChangePoints srv (Api.getChangePoints (Some (minProbability st))),
        getVolatility srv with
  | Resolved summaryRes, Resolved eventTypesRes, Resolved initialPriceRes,
    Resolved initialEventsRes, Resolved initialChangePointsRes, Resolved volatilityRes =>
      {| loading := false;
         error := None;
         priceData := Some initialPriceRes;
         events := orEmpty initialEventsRes;
         changePoints := orEmpty (Api.change_points initialChangePointsRes);
         summary := Some summaryRes;
         volatilityData := Some volatilityRes;
         eventTypes := orEmpty eventTypesRes;
         dateRange := dateRange st;
         selectedEventType := selectedEventType st;
         minProbability := minProbability st;
         highlightedEvent := highlightedEvent st |}
  | _, _, _, _, _, _ =>
      {| loading := false;
         error := Some "Failed to load dashboard data. Please try again."%string;
         priceData := priceData st;
         events := events st;
         changePoints := changePoints st;
         summary := summary st;
         volatilityData := volatilityData st;
         eventTypes := eventTypes st;
         dateRange := dateRange st;
         selectedEventType := selectedEventType st;
         minProbability := minProbability st;
         highlightedEvent := highlightedEvent st |}
  end.

(** The state when one run of [fetchFilteredData] is over; a rejection is
    logged and nothing is set. *)
Definition fetchFilteredData (srv : Server) (st : State) : State :=
  match getPrices srv (start (dateRange st)) (end_ (dateRange st)),
        getEvents srv (selectedEventType st) (start (dateRange st)) (end_ (dateRange st)),
        getChangePoints srv (Api.getChangePoints (Some (minProbability st))) with
  | Resolved priceRes, Resolved eventsRes, Resolved changePointsRes =>
      {| loading := loading st;
         error := error st;
         priceData := Some priceRes;
         events := orEmpty eventsRes;
         changePoints := orEmpty (Api.change_points changePointsRes);
         summary := summary st;
         volatilityData := volatilityData st;
         eventTypes := eventTypes st;
         dateRange := dateRange st;
         selectedEventType := selectedEventType st;
         minProbability := minProbability st;
         highlightedEvent := highlightedEvent st |}
  | _, _, _ => st
  end.

(** What the user does with the filters and the charts. *)
Inductive Action : Type :=
| ChangeDateRange (s e : string)
| ChangeEventType (t : string)
| ChangeProbability (p : Q)
| HighlightEvent (h : Highlight).

Definition withDateRange (r : DateRange) (st : State) : State :=
  {| loading := loading st; error := error st; priceData := priceData st;
     events := events st; changePoints := changePoints st; summary := summary st;
     volatilityData := volatilityData st; eventTypes := eventTypes st;
     dateRange := r;
     selectedEventType := selectedEventType st;
     minProbability := minProbability st;
     highlightedEvent := highlightedEvent st |}.

Definition withEventType (t : string) (st : State) : State :=
  {| loading := loading st; error := error st; priceData := priceData st;
     events := events st; changePoints := changePoints st; summary := summary st;
     volatilityData := volatilityData st; eventTypes := eventTypes st;
     dateRange := dateRange st;
     selectedEventType := t;
     minProbability := minProbability st;
     highlightedEvent := highlightedEvent st |}.

Definition withProbability (p : Q) (st : State) : State :=
  {| loading := loading st; error := error st; priceData := priceData st;
     events := events st; changePoints := changePoints st; summary := summary st;
     volatilityData := volatilityData st; eventTypes := eventTypes st;
     dateRange := dateRange st;
     selectedEventType := selectedEventType st;
     minProbability := p;
     highlightedEvent := highlightedEvent st |}.

Definition withHighlight (h : Highlight) (st : State) : State :=
  {| loading := loading st; error := error st; priceData := priceData st;
     events := events st; changePoints := changePoints st; summary := summary st;
     volatilityData := volatilityData st; eventTypes := eventTypes st;
     dateRange := dateRange st;
     selectedEventType := selectedEventType st;
     minProbability := minProbability st;
     highlightedEvent := Some h |}.

(** One action and the effect it triggers.  [handleDateRangeChange] stores a
    new object, so the effect on
    [[dateRange, selectedEventType, minProbability]] always runs; a type or
    a probability equal to the stored one changes nothing and runs
    nothing; a highlight is no dependency of the effect. *)
Definition step (srv : Server) (st : State) (a : Action) : State :=
  match a with
  | ChangeDateRange s e =>
      fetchFilteredData srv (withDateRange {| start := s; end_ := e |} st)
  | ChangeEventType t =>
      if String.eqb t (selectedEventType st) then st
      else fetchFilteredData srv (withEventType t st)
  | ChangeProbability p =>
      if Qeq_bool p (minProbability st) then st
      else fetchFilteredData srv (withProbability p st)
  | HighlightEvent h => withHighlight h st
  end.

Definition run (srv : Server) (st : State) (actions : list Action) : State :=
  fold_left (step srv) actions st.

(** What the component returns: the spinner, the alert, or the charts. *)
Inductive Screen : Type := Spinner | Alert (message : string) | Charts.

Definition render (st : State) : Screen :=
  if loading st then Spinner
  else match error st with
       | Some message => Alert message
       | None => Charts
       end.
End Types.

Arguments loading {PriceData Summary VolatilityData Highlight} s.
Arguments error {PriceData Summary VolatilityData Highlight} s.
Arguments priceData {PriceData Summary VolatilityData Highlight} s.
Arguments events {PriceData Summary VolatilityData Highlight} s.
Arguments changePoints {PriceData Summary VolatilityData Highlight} s.
Arguments summary {PriceData Summary VolatilityData Highlight} s.
Arguments volatilityData {PriceData Summary VolatilityData Highlight} s.
Arguments eventTypes {PriceData Summary VolatilityData Highlight} s.
Arguments dateRange {PriceData Summary VolatilityData Highlight} s.
Arguments selectedEventType {PriceData Summary VolatilityData Highlight} s.
Arguments minProbability {PriceData Summary VolatilityData Highlight} s.
Arguments highlightedEvent {PriceData Summary VolatilityData Highlight} s.
Arguments getSummary {PriceData Summary VolatilityData} s.
Arguments getEventTypes {PriceData Summary VolatilityData} s.
Arguments getPrices {PriceData Summary VolatilityData} s.
Arguments getEvents {PriceData Summary VolatilityData} s.
Arguments getChangePoints {PriceData Summary VolatilityData} s.
Arguments getVolatility {PriceData Summary VolatilityData} s.
Arguments initial {PriceData Summary VolatilityData Highlight}.
Arguments fetchAllData {PriceData Summary VolatilityData Highlight} srv st.
Arguments fetchFilteredData {PriceData Summary VolatilityData Highlight} srv st.
Arguments step {PriceData Summary VolatilityData Highlight} srv st a.
Arguments run {PriceData Summary VolatilityData Highlight} srv st actions.
Arguments render {PriceData Summary VolatilityData Highlight} st.

End DashboardState.

(** ** components/DataRangePicker.js *)

Module DateRangePicker.

(** A calendar day on the local clock: [getFullYear()], [getMonth()]
    (January is [0]) and [getDate()].  The time of day plays no part, the
    range goes out as two ['YYYY-MM-DD'] days. *)
Record Date : Type := { year : Z; month : Z; day : Z }.

Definition leap (y : Z) : bool :=
  (y mod 4 =? 0) && (negb (y mod 100 =? 0) || (y mod 400 =? 0)).

Definition daysInMonth (y m : Z) : Z :=
  if m =? 1 then (if leap y then 29 else 28)
  else if (m =? 3) || (m =? 5) || (m =? 8) || (m =? 10) then 30
  else 31.

(** A day that exists. *)
Definition valid (d : Date) : Prop :=
  0 <= month d <= 11 /\ 1 <= day d <= daysInMonth (year d) (month d).

(** [d.setFullYear(y)]: the month and the day of the month are kept, and a
    day past the end of the month runs over into the next one. *)
Definition setFullYear (d : Date) (y : Z) : Date :=
  if day d <=? daysInMonth y (month d)
  then {| year := y; month := month d; day := day d |}
  else {| year := y; month := month d + 1; day := day d - daysInMonth y (month d) |}.

(** [moment('1987-05-20').toDate()] *)
Definition firstDay : Date := {| year := 1987; month := 4; day := 20 |}.

(** [handlePresetRange(preset)] on the day [today], on which both
    [new Date()] fall: the two days handed to [onDateRangeChange]. *)
Definition handlePresetRange (today : Date) (preset : string) : Date * Date :=
  let end_ := today in
  let start :=
    if String.eqb preset "1Y" then setFullYear today (year end_ - 1)
    else if String.eqb preset "5Y" then setFullYear today (year end_ - 5)
    else if String.eqb preset "10Y" then setFullYear today (year end_ - 10)
    else if String.eqb preset "ALL" then firstDay
    else today in
  (start, end_).

(** The order of days. *)
Definition before (a b : Date) : Prop :=
  year a < year b \/
  (year a = year b /\ (month a < month b \/ (month a = month b /\ day a < day b))).

End DateRangePicker.

(** ** Series Preprocessor (specification, section 4.1) *)

Module Preprocessor.

Local Open Scope R_scope.

(** Modelled from the spec: the preprocessor's code is not among the
    sources (the front end only reads [data.returns] from the API).  A
    PriceObservation of section 3, the date as a day number. *)
Record PriceObservation : Type := { date : Z; price : R }.

(** Modelled from the spec: a ReturnObservation of section 3. *)
Record ReturnObservation : Type := { return_date : Z; log_return : R }.

(** Modelled from the spec: the three ways a series is refused. *)
Inductive DataError : Type :=
| TooFewObservations
| NonMonotonicDates
| NonPositivePrice.

(** Modelled from the spec: the dates are strictly increasing. *)
Fixpoint increasingDates (prices : list PriceObservation) : Prop :=
  match prices with
  | p :: (q :: _) as rest => (date p < date q)%Z /\ increasingDates rest
  | _ => True
  end.

(** Modelled from the spec: a valid series has at least two observations,
    strictly increasing dates and strictly positive prices. *)
Definition valid (prices : list PriceObservation) : Prop :=
  (2 <= List.length prices)%nat /\
  increasingDates prices /\
  Forall (fun p => 0 < price p) prices.

(** Modelled from the spec: the check of the dates. *)
Fixpoint datesIncrease (prices : list PriceObservation) : bool :=
  match prices with
  | p :: (q :: _) as rest => (date p <? date q)%Z && datesIncrease rest
  | _ => true
  end.

(** Modelled from the spec: the check of one price. *)
Definition positive (p : PriceObservation) : bool :=
  if Rlt_dec 0 (price p) then true else false.

(** Modelled from the spec: the log return of each observation but the
    first, [ln(price_t / price_{t-1})]. *)
Fixpoint log_returns (prices : list PriceObservation) : list ReturnObservation :=
  match prices with
  | p :: (q :: _) as rest =>
      {| return_date := date q; log_return := ln (price q / price p) |}
        :: log_returns rest
  | _ => []
  end.

(** Modelled from the spec: the contract of section 4.1, [DataError] on
    fewer than two observations, on dates that do not increase and on a
    price that is not positive; the return series otherwise. *)
Definition preprocess (prices : list PriceObservation)
  : DataError + list ReturnObservation :=
  if (List.length prices <? 2)%nat then inl TooFewObservations
  else if negb (datesIncrease prices) then inl NonMonotonicDates
  else if negb (forallb positive prices) then inl NonPositivePrice
  else inr (log_returns prices).

End Preprocessor.

(** ** Posterior Summarizer (specification, section 4.3) *)

Module Summarizer.

(** Modelled from the spec: the summarizer's code is not among the sources.
    The two settings of section 4.3. *)
Record Config : Type := {
  threshold : Q;
  minSeparation : nat
}.

(** Modelled from the spec: threshold 0.5, minimum separation 5
    observations. *)
Definition defaults : Config := {| threshold := 5 # 10; minSeparation := 5 |}.

(** Modelled from the spec: a reported change point, its time index and its
    probability (the regime statistics it carries along are left out). *)
Record ChangePointAt : Type := { index : nat; prob : Q }.

(** Modelled from the spec: the probability at an index of the vector. *)
Definition probAt (posterior : list Q) (i : nat) : Q := nth i posterior 0%Q.

(** Modelled from the spec: [p] exceeds the threshold [t]. *)
Definition exceeds (t p : Q) : bool := negb (Qle_bool p t).

(** Modelled from the spec: [j] is less than the minimum separation away
    from [i]. *)
Definition near (cfg : Config) (i j : nat) : bool :=
  ((i - j) + (j - i) <? minSeparation cfg)%nat.

(** Modelled from the spec: the probability at [j] outranks the one at [i],
    being larger, or equal and earlier. *)
Definition outranks (posterior : list Q) (j i : nat) : bool :=
  negb (Qle_bool (probAt posterior j) (probAt posterior i))
  || (Qeq_bool (probAt posterior j) (probAt posterior i) && (j <? i)%nat).

(** Modelled from the spec: an index is retained when its probability
    exceeds the threshold and it is the mode of its run, no index closer
    than the minimum separation outranking it (non-maximum suppression). *)
Definition retained (cfg : Config) (posterior : list Q) (i : nat) : bool :=
  exceeds (threshold cfg) (probAt posterior i)
  && forallb (fun j => negb (near cfg i j && outranks posterior j i))
       (seq 0 (List.length posterior)).

(** Modelled from the spec: the ChangePoint sequence emitted for a
    per-index probability vector, in chronological order. *)
Definition summarize (cfg : Config) (posterior : list Q) : list ChangePointAt :=
  map (fun i => {| index := i; prob := probAt posterior i |})
      (filter (retained cfg posterior) (seq 0 (List.length posterior))).

(** Modelled from the spec: the summarizer's output read as a probability
    vector of length [n] again, the probability of each reported change
    point at its index and [0] everywhere else. *)
Definition asPosterior (n : nat) (cps : list ChangePointAt) : list Q :=
  map (fun i =>
         match find (fun c => (index c =? i)%nat) cps with
         | Some c => prob c
         | None => 0%Q
         end)
      (seq 0 n).

End Summarizer.

(** ** The rules of the specification, as predicates on what the code returns *)

Module Spec.

(** [offset_days]: signed, negative when the change point precedes the
    event. *)
Definition offset (event : Event.t) (cp : ChangePoint.t) : Z :=
  Moment.diff_days (ChangePoint.date cp) (Event.date event).

(** Section 4.4, selection rule: [cp] lies in the window of [event], no
    change point of the list is nearer by absolute day offset, and of two
    equidistant ones [cp] is the earlier. *)
Definition nearest (changePoints : list ChangePoint.t) (event : Event.t)
  (cp : ChangePoint.t) : Prop :=
  In cp changePoints /\
  Z.abs (offset event cp) <= 30 /\
  forall other, In other changePoints -> Z.abs (offset event other) <= 30 ->
    Z.abs (offset event cp) < Z.abs (offset event other) \/
    (Z.abs (offset event cp) = Z.abs (offset event other) /\
     ChangePoint.date cp <= ChangePoint.date other).

(** Section 3: change points are ordered chronologically. *)
Definition chronological (changePoints : list ChangePoint.t) : Prop :=
  StronglySorted (fun a b => ChangePoint.date a <= ChangePoint.date b) changePoints.

(** [a] may stand before [b] in a list ordered by non-increasing
    probability. *)
Definition byProbability (a b : ChangePoint.t) : Prop :=
  (ChangePoint.probability b <= ChangePoint.probability a)%Q.

(** The bars show at most ten change points of the list, the most probable
    ones, by non-increasing probability. *)
Definition topTen (changePoints : list ChangePoint.t) (bars : list ChangePointChart.Bar)
  : Prop :=
  let shown := map ChangePointChart.cp bars in
  (List.length bars <= 10)%nat /\
  StronglySorted byProbability shown /\
  exists rest,
    Permutation (shown ++ rest) changePoints /\
    forall s r, In s shown -> In r rest -> byProbability s r.

(** The rational number that a finite double is. *)
Definition exact (x : float) : option Q :=
  match Prim2SF x with
  | S754_zero _ => Some 0%Q
  | S754_finite s m e =>
      let magnitude :=
        if 0 <=? e then inject_Z (Z.pos m * 2 ^ e)
        else (Z.pos m # 2 ^ Z.to_pos (- e))%Q in
      Some (if s then (- magnitude)%Q else magnitude)
  | S754_infinity _ | S754_nan => None
  end.

(** [a] may stand before [b] in a table ordered by non-increasing absolute
    percent change. *)
Definition byMagnitude (a b : ImpactMetrics.Row) : Prop :=
  (Qabs (ImpactMetrics.impactMagnitude b) <= Qabs (ImpactMetrics.impactMagnitude a))%Q.

End Spec.

(** ** Sample data *)

Module Sample.

Definition changePoint (d : Z) (p : Q) : ChangePoint.t :=
  {| ChangePoint.date := Moment.day d;
     ChangePoint.probability := p;
     ChangePoint.impact_pct := 0 |}.

Definition impact (percent : JS.value) (before after : JS.value64) : Impact.t :=
  {| Impact.percent_change := percent;
     Impact.price_change := JS.Num 2;
     Impact.price_before := JS.Num 50;
     Impact.price_after := JS.Num 52;
     Impact.volatility_before := before;
     Impact.volatility_after := after |}.

Definition event (d : Z) (n : string) (i : option Impact.t) : Event.t :=
  {| Event.date := Moment.day d;
     Event.name := n;
     Event.type := "Policy Decision";
     Event.region := "Global";
     Event.impact := i |}.

(** An event on day 0 with a complete impact record. *)
Definition opec : Event.t :=
  event 0 "OPEC cut" (Some (impact (JS.Num 4) (JS.Num64 0.2) (JS.Num64 0.3))).

(** A second event, three days later. *)
Definition sanctions : Event.t :=
  event 3 "Sanctions" (Some (impact (JS.Num (-7)) (JS.Num64 0.2) JS.Undefined64)).

(** An event without an impact record. *)
Definition bare : Event.t := event 5 "Summit" None.

(** An event whose impact record has no [price_before]. *)
Definition partial : Event.t :=
  event 9 "Strike"
    (Some {| Impact.percent_change := JS.Num 5;
             Impact.price_change := JS.Num 2;
             Impact.price_before := JS.Undefined;
             Impact.price_after := JS.Num 52;
             Impact.volatility_before := JS.Num64 0.2;
             Impact.volatility_after := JS.Num64 0.3 |}).

(** Change points 20 days before and 5 days after day 0, in chronological
    order. *)
Definition far : ChangePoint.t := changePoint (-20) (9 # 10).
Definition close : ChangePoint.t := changePoint 5 (95 # 100).

(** Change points 10 days before and 10 days after day 0. *)
Definition before10 : ChangePoint.t := changePoint (-10) (9 # 10).
Definition after10 : ChangePoint.t := changePoint 10 (95 # 100).

(** A change point exactly 30 days after day 0, and one 31 days after. *)
Definition at30 : ChangePoint.t := changePoint 30 (85 # 100).
Definition at31 : ChangePoint.t := changePoint 31 (85 # 100).

(** A server that ignores the request. *)
Definition server (cps : list ChangePoint.t) (_ : Api.Request) : Api.Response :=
  {| Api.change_points := Some cps |}.

(** A two-day price series and a five-index posterior with one run. *)
Definition prices : list Preprocessor.PriceObservation :=
  [ {| Preprocessor.date := 0; Preprocessor.price := 50%R |};
    {| Preprocessor.date := 1; Preprocessor.price := 70%R |} ].

Definition posterior : list Q := [1 # 10; 6 # 10; 9 # 10; 7 # 10; 2 # 10].

End Sample.

(** ** Notions used to state what the components do *)

Module Derived.

(** The variant on the other side of zero. *)
Definition mirror (v : ImpactColor.Variant) : ImpactColor.Variant :=
  match v with
  | ImpactColor.success => ImpactColor.danger
  | ImpactColor.info => ImpactColor.warning
  | ImpactColor.danger => ImpactColor.success
  | ImpactColor.warning => ImpactColor.info
  | ImpactColor.secondary => ImpactColor.secondary
  end.

(** The colour a bar has in the band of a variant. *)
Definition hex (v : ImpactColor.Variant) : string :=
  match v with
  | ImpactColor.success => "#28a745"
  | ImpactColor.info => "#5cb85c"
  | ImpactColor.danger => "#dc3545"
  | ImpactColor.warning => "#f0ad4e"
  | ImpactColor.secondary => "#6c757d"
  end.

Definition isSuccess (v : ImpactColor.Variant) : bool :=
  match v with
  | ImpactColor.success => true
  | _ => false
  end.

(** The last element of a list that satisfies [p]. *)
Fixpoint lastSuch {A : Type} (p : A -> bool) (l : list A) : option A :=
  match l with
  | [] => None
  | x :: l' =>
      match lastSuch p l' with
      | Some y => Some y
      | None => if p x then Some x else None
      end
  end.

Definition nonEmpty {A : Type} (l : list A) : bool :=
  match l with
  | [] => false
  | _ :: _ => true
  end.

(** [i] is the first position of [x] in [l]. *)
Definition firstAt {A : Type} (l : list A) (x : A) (i : nat) : Prop :=
  nth_error l i = Some x /\ forall j, (j < i)%nat -> nth_error l j <> Some x.

Section Dashboard.
Context {PriceData Summary VolatilityData Highlight : Type}.
(** The six slices that [fetchAllData] loads are the same in two states. *)
Definition sameData
  (a b : DashboardState.State PriceData Summary VolatilityData Highlight) : Prop :=
  DashboardState.priceData a = DashboardState.priceData b /\
  DashboardState.events a = DashboardState.events b /\
  DashboardState.changePoints a = DashboardState.changePoints b /\
  DashboardState.summary a = DashboardState.summary b /\
  DashboardState.volatilityData a = DashboardState.volatilityData b /\
  DashboardState.eventTypes a = DashboardState.eventTypes b.

(** One of the six requests of [fetchAllData], sent from the state [st],
    is rejected. *)
Definition someRejected
  (srv : DashboardState.Server PriceData Summary VolatilityData)
  (st : DashboardState.State PriceData Summary VolatilityData Highlight) : Prop :=
  DashboardState.getSummary srv = DashboardState.Rejected \/
  DashboardState.getEventTypes srv = DashboardState.Rejected \/
  DashboardState.getPrices srv
    (DashboardState.start (DashboardState.dateRange st))
    (DashboardState.end_ (DashboardState.dateRange st))
  = DashboardState.Rejected \/
  DashboardState.getEvents srv (DashboardState.selectedEventType st)
    (DashboardState.start (DashboardState.dateRange st))
    (DashboardState.end_ (DashboardState.dateRange st))
  = DashboardState.Rejected \/
  DashboardState.getChangePoints srv
    (Api.getChangePoints (Some (DashboardState.minProbability st)))
  = DashboardState.Rejected \/
  DashboardState.getVolatility srv = DashboardState.Rejected.

(** The three filters are the same in two states. *)
Definition sameFilters
  (a b : DashboardState.State PriceData Summary VolatilityData Highlight) : Prop :=
  DashboardState.dateRange a = DashboardState.dateRange b /\
  DashboardState.selectedEventType a = DashboardState.selectedEventType b /\
  DashboardState.minProbability a = DashboardState.minProbability b.
End Dashboard.

End Derived.

(** ** More sample data *)

Module Fixture.

(** A price series of three trading days. *)
Definition priceData : PriceChart.Data (D := string) :=
  {| PriceChart.dates := Some ["2020-03-06"; "2020-03-09"; "2020-03-10"]%string;
     PriceChart.prices := Some [JS.Num 45; JS.Num 34; JS.Num 37];
     PriceChart.ma_30d := None;
     PriceChart.returns := None |}.

Definition eventTypes : list EventTypeSelect.EventType :=
  [ {| EventTypeSelect.name := "Policy Decision"; EventTypeSelect.count := 4 |};
    {| EventTypeSelect.name := "Financial Crisis"; EventTypeSelect.count := 2 |} ].

(** A server whose every endpoint rejects, and a state of the dashboard
    over unit payloads. *)
Definition down : DashboardState.Server unit unit unit :=
  {| DashboardState.getSummary := DashboardState.Rejected;
     DashboardState.getEventTypes := DashboardState.Rejected;
     DashboardState.getPrices := fun _ _ => DashboardState.Rejected;
     DashboardState.getEvents := fun _ _ _ => DashboardState.Rejected;
     DashboardState.getChangePoints := fun _ => DashboardState.Rejected;
     DashboardState.getVolatility := DashboardState.Rejected |}.

(** A server whose every endpoint resolves and which answers every
    change-point request with the same two change points, of probability
    [0.9] and [0.95]. *)
Definition up : DashboardState.Server unit unit unit :=
  {| DashboardState.getSummary := DashboardState.Resolved tt;
     DashboardState.getEventTypes := DashboardState.Resolved (Some eventTypes);
     DashboardState.getPrices := fun _ _ => DashboardState.Resolved tt;
     DashboardState.getEvents := fun _ _ _ => DashboardState.Resolved (Some [Sample.opec]);
     DashboardState.getChangePoints :=
       fun request =>
         DashboardState.Resolved (Sample.server [Sample.far; Sample.close] request);
     DashboardState.getVolatility := DashboardState.Resolved tt |}.

(** The same server with the price endpoint rejecting. *)
Definition pricesDown : DashboardState.Server unit unit unit :=
  {| DashboardState.getSummary := DashboardState.getSummary up;
     DashboardState.getEventTypes := DashboardState.getEventTypes up;
     DashboardState.getPrices := fun _ _ => DashboardState.Rejected;
     DashboardState.getEvents := DashboardState.getEvents up;
     DashboardState.getChangePoints := DashboardState.getChangePoints up;
     DashboardState.getVolatility := DashboardState.getVolatility up |}.

(** The 29th of February 2024 and the 15th of August 2025. *)
Definition leapDay : DateRangePicker.Date :=
  {| DateRangePicker.year := 2024; DateRangePicker.month := 1; DateRangePicker.day := 29 |}.

Definition summerDay : DateRangePicker.Date :=
  {| DateRangePicker.year := 2025; DateRangePicker.month := 7; DateRangePicker.day := 15 |}.

End Fixture.

(** * Properties *)

(** ** The sort *)

Section SortFacts.
Context {A : Type} (cmp : A -> A -> Q).

Lemma insert_perm (x : A) (l : list A) :
  Permutation (JS.insert cmp x l) (x :: l).
Proof.
  induction l as [|y l IH]; simpl.
  - apply Permutation_refl.
  - destruct (Qle_bool (cmp x y) 0).
    + apply Permutation_refl.
    + apply perm_trans with (y :: x :: l).
      * now apply perm_skip.
      * apply perm_swap.
Qed.

Lemma sort_perm (l : list A) : Permutation (JS.sort cmp l) l.
Proof.
  induction l as [|x l IH]; simpl.
  - apply perm_nil.
  - apply perm_trans with (x :: JS.sort cmp l).
    + apply insert_perm.
    + now apply perm_skip.
Qed.

Lemma sort_length (l : list A) : List.length (JS.sort cmp l) = List.length l.
Proof. apply Permutation_length, sort_perm. Qed.

Lemma sort_In (l : list A) (x : A) : In x (JS.sort cmp l) <-> In x l.
Proof.
  split; apply Permutation_in; [|apply Permutation_sym]; apply sort_perm.
Qed.

(** [before a b]: the comparator lets [a] stand before [b]. *)
Variable before : A -> A -> Prop.
Hypothesis before_trans : forall a b c, before a b -> before b c -> before a c.
Hypothesis cmp_le : forall a b, Qle_bool (cmp a b) 0 = true -> before a b.
Hypothesis cmp_gt : forall a b, Qle_bool (cmp a b) 0 = false -> before b a.

Lemma insert_sorted (x : A) (l : list A) :
  StronglySorted before l -> StronglySorted before (JS.insert cmp x l).
Proof.
  induction 1 as [|y l Hl IH Hy]; simpl.
  - constructor; constructor.
  - destruct (Qle_bool (cmp x y) 0) eqn:E.
    + constructor.
      * now constructor.
      * constructor.
        -- now apply cmp_le.
        -- apply Forall_impl with (P := before y); [|exact Hy].
           intros z Hz. apply before_trans with y; [now apply cmp_le | exact Hz].
    + constructor; [exact IH|].
      apply Forall_forall. intros z Hz.
      apply (Permutation_in _ (insert_perm x l)) in Hz.
      destruct Hz as [<-|Hz].
      * now apply cmp_gt.
      * rewrite Forall_forall in Hy. now apply Hy.
Qed.

Lemma sort_sorted (l : list A) : StronglySorted before (JS.sort cmp l).
Proof.
  induction l as [|x l IH]; simpl.
  - constructor.
  - now apply insert_sorted.
Qed.

End SortFacts.

Lemma StronglySorted_app_cross {A : Type} (R : A -> A -> Prop) (l1 l2 : list A) :
  StronglySorted R (l1 ++ l2) ->
  forall a b, In a l1 -> In b l2 -> R a b.
Proof.
  induction l1 as [|x l1 IH]; simpl; intros HS a b Ha Hb.
  - contradiction.
  - inversion HS as [|? ? HS' HF]; subst.
    destruct Ha as [<-|Ha].
    + rewrite Forall_forall in HF. apply HF, in_or_app. now right.
    + now apply IH.
Qed.

Lemma StronglySorted_app_left {A : Type} (R : A -> A -> Prop) (l1 l2 : list A) :
  StronglySorted R (l1 ++ l2) -> StronglySorted R l1.
Proof.
  induction l1 as [|x l1 IH]; simpl; intros HS.
  - constructor.
  - inversion HS as [|? ? HS' HF]; subst. constructor.
    + now apply IH.
    + apply Forall_forall. intros z Hz. rewrite Forall_forall in HF.
      apply HF, in_or_app. now left.
Qed.

Lemma mapFrom_length {A B : Type} (f : A -> nat -> B) (l : list A) (i : nat) :
  List.length (JS.mapFrom f i l) = List.length l.
Proof.
  revert i. induction l as [|x l IH]; simpl; intros i; [reflexivity|].
  now rewrite IH.
Qed.

Lemma mapFrom_project {A B : Type} (f : A -> nat -> B) (g : B -> A)
  (Hg : forall x i, g (f x i) = x) (l : list A) (i : nat) :
  map g (JS.mapFrom f i l) = l.
Proof.
  revert i. induction l as [|x l IH]; simpl; intros i; [reflexivity|].
  now rewrite Hg, IH.
Qed.

(** ** The first element that satisfies a predicate *)

Lemma find_split {A : Type} (f : A -> bool) (l : list A) (x : A) :
  find f l = Some x ->
  exists l1 l2,
    l = l1 ++ x :: l2 /\ f x = true /\ forall y, In y l1 -> f y = false.
Proof.
  induction l as [|a l IH]; simpl; intros H; [discriminate|].
  destruct (f a) eqn:E.
  - injection H as <-. exists [], l. repeat split; [exact E|].
    intros y [].
  - destruct (IH H) as (l1 & l2 & -> & Hx & Hl1).
    exists (a :: l1), l2. repeat split; [exact Hx|].
    intros y [<-|Hy]; [exact E | now apply Hl1].
Qed.

Lemma find_is_Some {A : Type} (f : A -> bool) (l : list A) (x : A) :
  In x l -> f x = true -> exists y, find f l = Some y.
Proof.
  intros Hin Hx. destruct (find f l) as [y|] eqn:E; [now exists y|].
  now rewrite (find_none f l E x Hin) in Hx.
Qed.

Lemma inWindow_true (event : Event.t) (cp : ChangePoint.t) :
  ImpactMetrics.inWindow event cp = true <-> Z.abs (Spec.offset event cp) <= 30.
Proof. unfold ImpactMetrics.inWindow, Spec.offset. apply Z.leb_le. Qed.

Lemma inWindow_false (event : Event.t) (cp : ChangePoint.t) :
  ImpactMetrics.inWindow event cp = false <-> 30 < Z.abs (Spec.offset event cp).
Proof. unfold ImpactMetrics.inWindow, Spec.offset. apply Z.leb_gt. Qed.

Lemma associatedCP_None (changePoints : list ChangePoint.t) (event : Event.t) :
  (forall cp, In cp changePoints -> 30 < Z.abs (Spec.offset event cp)) ->
  ImpactMetrics.associatedCP changePoints event = None.
Proof.
  intros Hall. unfold ImpactMetrics.associatedCP.
  destruct (find _ changePoints) as [cp|] eqn:E; [|reflexivity].
  destruct (find_some _ _ E) as [Hin Hw].
  apply inWindow_true in Hw. specialize (Hall cp Hin). lia.
Qed.

Lemma associatedCP_Some (changePoints : list ChangePoint.t) (event : Event.t)
  (cp : ChangePoint.t) :
  In cp changePoints -> Z.abs (Spec.offset event cp) <= 30 ->
  exists chosen, ImpactMetrics.associatedCP changePoints event = Some chosen.
Proof.
  intros Hin Hw. apply (find_is_Some _ _ cp Hin). now apply inWindow_true.
Qed.

Lemma hasChangePoint_detected (changePoints : list ChangePoint.t) (event : Event.t) :
  EventTimeline.hasChangePoint changePoints event
  = ImpactMetrics.changePointDetected (ImpactMetrics.row changePoints event).
Proof.
  unfold EventTimeline.hasChangePoint, ImpactMetrics.row, ImpactMetrics.associatedCP.
  simpl. induction changePoints as [|c l IH]; simpl; [reflexivity|].
  destruct (ImpactMetrics.inWindow event c); simpl; [reflexivity | exact IH].
Qed.

(** ** Event correlation *)

(** C1, as the code has it: an event with a change point inside the
    30-day window is associated with the first change point of the list that
    lies inside the window, every change point before it in the list being
    outside; when the list is chronological that is the earliest change
    point inside the window, so of two equidistant ones the later is never
    taken. *)
Theorem associatedCP_first_in_window
  (changePoints : list ChangePoint.t) (event : Event.t) :
  (exists cp, In cp changePoints /\ Z.abs (Spec.offset event cp) <= 30) ->
  exists chosen front back,
    ImpactMetrics.associatedCP changePoints event = Some chosen /\
    changePoints = front ++ chosen :: back /\
    Z.abs (Spec.offset event chosen) <= 30 /\
    (forall cp, In cp front -> 30 < Z.abs (Spec.offset event cp)) /\
    (Spec.chronological changePoints ->
     forall cp, In cp changePoints -> Z.abs (Spec.offset event cp) <= 30 ->
       ChangePoint.date chosen <= ChangePoint.date cp).
Proof.
  intros (cp0 & Hin0 & Hw0).
  destruct (associatedCP_Some _ _ _ Hin0 Hw0) as [chosen Hc].
  destruct (find_split _ _ _ Hc) as (front & back & Heq & Hw & Hfront).
  exists chosen, front, back. repeat split; try assumption.
  - now apply inWindow_true.
  - intros cp Hcp. now apply inWindow_false, Hfront.
  - intros Hchrono cp Hcp Hwcp. rewrite Heq in Hcp, Hchrono.
    apply in_app_or in Hcp. destruct Hcp as [Hcp|[<-|Hcp]].
    + apply Hfront, inWindow_false in Hcp. lia.
    + lia.
    + unfold Spec.chronological in Hchrono.
      assert (Hs : StronglySorted
                (fun a b => ChangePoint.date a <= ChangePoint.date b)
                ((front ++ [chosen]) ++ back))
        by now rewrite <- app_assoc.
      apply (StronglySorted_app_cross _ _ _ Hs); [|exact Hcp].
      apply in_or_app. right. now left.
Qed.

Lemma associatedCP_first_in_window_witness :
  exists chosen front back,
    ImpactMetrics.associatedCP [Sample.before10; Sample.after10] Sample.opec
      = Some chosen /\
    [Sample.before10; Sample.after10] = front ++ chosen :: back /\
    Z.abs (Spec.offset Sample.opec chosen) <= 30 /\
    (forall cp, In cp front -> 30 < Z.abs (Spec.offset Sample.opec cp)) /\
    (Spec.chronological [Sample.before10; Sample.after10] ->
     forall cp, In cp [Sample.before10; Sample.after10] ->
       Z.abs (Spec.offset Sample.opec cp) <= 30 ->
       ChangePoint.date chosen <= ChangePoint.date cp).
Proof.
  apply (associatedCP_first_in_window [Sample.before10; Sample.after10] Sample.opec).
  exists Sample.after10. split.
  - simpl. right. left. reflexivity.
  - vm_compute. discriminate.
Defined.

(** C1 as stated fails: with change points 20 days before and 5 days after
    an event, in chronological order, the event is associated with the one
    20 days before, which is not the nearest. *)
Lemma associatedCP_not_nearest :
  ImpactMetrics.associatedCP [Sample.far; Sample.close] Sample.opec = Some Sample.far /\
  ~ Spec.nearest [Sample.far; Sample.close] Sample.opec Sample.far.
Proof.
  split; [reflexivity|].
  intros (_ & _ & Hnear).
  destruct (Hnear Sample.close) as [H|[H _]].
  - simpl. right. left. reflexivity.
  - vm_compute. discriminate.
  - vm_compute in H. discriminate.
  - vm_compute in H. discriminate.
Qed.

(** The constructed case of the specification: change points 10 days before
    and 10 days after the event.  In chronological order the earlier one is
    taken; the choice follows the order of the list. *)
Example tie_chronological :
  ImpactMetrics.associatedCP [Sample.before10; Sample.after10] Sample.opec
  = Some Sample.before10.
Proof. reflexivity. Qed.

Example tie_reversed :
  ImpactMetrics.associatedCP [Sample.after10; Sample.before10] Sample.opec
  = Some Sample.after10.
Proof. reflexivity. Qed.

(** C3: the tolerance is inclusive.  An event with a change point at an
    absolute day offset of exactly 30 is matched, in the impact table and on
    the timeline; an event farther than 30 days from every change point is
    not matched and carries no probability ([null]). *)
Theorem tolerance_boundary_inclusive
  (changePoints : list ChangePoint.t) (event : Event.t) :
  ((exists cp, In cp changePoints /\ Z.abs (Spec.offset event cp) = 30) ->
   ImpactMetrics.changePointDetected (ImpactMetrics.row changePoints event) = true /\
   EventTimeline.hasChangePoint changePoints event = true) /\
  ((forall cp, In cp changePoints -> 30 < Z.abs (Spec.offset event cp)) ->
   ImpactMetrics.changePointDetected (ImpactMetrics.row changePoints event) = false /\
   ImpactMetrics.changePointProbability (ImpactMetrics.row changePoints event) = None /\
   EventTimeline.hasChangePoint changePoints event = false).
Proof.
  split.
  - intros (cp & Hin & H30).
    rewrite hasChangePoint_detected.
    assert (Hw : Z.abs (Spec.offset event cp) <= 30) by lia.
    destruct (associatedCP_Some _ _ _ Hin Hw) as [chosen Hc].
    unfold ImpactMetrics.row. simpl. rewrite Hc. split; reflexivity.
  - intros Hall.
    rewrite hasChangePoint_detected.
    unfold ImpactMetrics.row. simpl.
    rewrite (associatedCP_None _ _ Hall). repeat split; reflexivity.
Qed.

Lemma tolerance_boundary_inclusive_witness :
  (ImpactMetrics.changePointDetected (ImpactMetrics.row [Sample.at30] Sample.opec) = true /\
   EventTimeline.hasChangePoint [Sample.at30] Sample.opec = true) /\
  (ImpactMetrics.changePointDetected (ImpactMetrics.row [Sample.at31] Sample.opec) = false /\
   ImpactMetrics.changePointProbability (ImpactMetrics.row [Sample.at31] Sample.opec) = None /\
   EventTimeline.hasChangePoint [Sample.at31] Sample.opec = false).
Proof.
  split.
  - apply (proj1 (tolerance_boundary_inclusive [Sample.at30] Sample.opec)).
    exists Sample.at30. split; [simpl; left; reflexivity | reflexivity].
  - apply (proj2 (tolerance_boundary_inclusive [Sample.at31] Sample.opec)).
    intros cp [<-|[]]. reflexivity.
Defined.

(** The truncation of [diff]: a change point 30 days and 23 hours away is
    still 30 whole days away. *)
Example within_the_31st_day :
  ImpactMetrics.inWindow Sample.opec
    {| ChangePoint.date := Moment.day 30 + 23 * 3600000;
       ChangePoint.probability := 9 # 10;
       ChangePoint.impact_pct := 0 |} = true.
Proof. reflexivity. Qed.

(** ** The rows of the impact table *)

Lemma insert_In {A : Type} (cmp : A -> A -> Q) (x y : A) (l : list A) :
  In y (JS.insert cmp x l) <-> y = x \/ In y l.
Proof.
  split; intros H.
  - apply (Permutation_in _ (insert_perm cmp x l)) in H.
    destruct H as [<-|H]; [now left | now right].
  - apply (Permutation_in _ (Permutation_sym (insert_perm cmp x l))).
    destruct H as [->|H]; [now left | now right].
Qed.

Lemma impactData_perm (events : list Event.t) (changePoints : list ChangePoint.t) :
  Permutation (ImpactMetrics.impactData events changePoints)
    (map (ImpactMetrics.row changePoints) (filter Event.hasImpact events)).
Proof. apply sort_perm. Qed.

Lemma impactData_row (events : list Event.t) (changePoints : list ChangePoint.t)
  (r : ImpactMetrics.Row) :
  In r (ImpactMetrics.impactData events changePoints) <->
  exists e, In e events /\ Event.hasImpact e = true /\
            r = ImpactMetrics.row changePoints e.
Proof.
  unfold ImpactMetrics.impactData. rewrite sort_In, in_map_iff.
  split.
  - intros (e & <- & He). apply filter_In in He. destruct He as [He Hi].
    now exists e.
  - intros (e & He & Hi & ->). exists e. split; [reflexivity|].
    apply filter_In. now split.
Qed.

(** C4: an event is associated with at most one change point, and one
    change point may be the associate of several events.  The association
    is a partial function of the event; the table has one row for each
    event with an impact record, and the row's match is that association;
    and two different events can share their change point. *)
Theorem event_matches_at_most_one :
  (forall changePoints event c1 c2,
      ImpactMetrics.associatedCP changePoints event = Some c1 ->
      ImpactMetrics.associatedCP changePoints event = Some c2 ->
      c1 = c2) /\
  (forall events changePoints,
      List.length (ImpactMetrics.impactData events changePoints)
      = List.length (filter Event.hasImpact events) /\
      forall r, In r (ImpactMetrics.impactData events changePoints) ->
        ImpactMetrics.changePointDetected r = true ->
        exists cp, ImpactMetrics.associatedCP changePoints (ImpactMetrics.event r) = Some cp /\
                   forall cp', ImpactMetrics.associatedCP changePoints (ImpactMetrics.event r)
                               = Some cp' -> cp' = cp) /\
  (exists changePoints e1 e2 cp,
      e1 <> e2 /\
      ImpactMetrics.associatedCP changePoints e1 = Some cp /\
      ImpactMetrics.associatedCP changePoints e2 = Some cp).
Proof.
  split; [|split].
  - intros changePoints event c1 c2 H1 H2. congruence.
  - intros events changePoints. split.
    + rewrite (Permutation_length (impactData_perm events changePoints)).
      apply length_map.
    + intros r Hr Hd. apply impactData_row in Hr.
      destruct Hr as (e & _ & _ & ->). simpl in *.
      destruct (ImpactMetrics.associatedCP changePoints e) as [cp|]; [|discriminate].
      exists cp. split; [reflexivity|]. intros cp' H. congruence.
  - exists [Sample.close], Sample.opec, Sample.sanctions, Sample.close.
    split; [discriminate|]. split; reflexivity.
Qed.

Lemma Qle_bool_false (x y : Q) : Qle_bool x y = false -> (y < x)%Q.
Proof.
  intros H. apply Qnot_le_lt. intros Hle.
  apply Qle_bool_iff in Hle. congruence.
Qed.

Lemma byMagnitude_trans (a b c : ImpactMetrics.Row) :
  Spec.byMagnitude a b -> Spec.byMagnitude b c -> Spec.byMagnitude a c.
Proof. unfold Spec.byMagnitude. intros H1 H2. eapply Qle_trans; eassumption. Qed.

Lemma compare_le (a b : ImpactMetrics.Row) :
  Qle_bool (ImpactMetrics.compare a b) 0 = true -> Spec.byMagnitude a b.
Proof.
  unfold ImpactMetrics.compare, Spec.byMagnitude. intros H.
  apply Qle_bool_iff in H. Lqa.lra.
Qed.

Lemma compare_gt (a b : ImpactMetrics.Row) :
  Qle_bool (ImpactMetrics.compare a b) 0 = false -> Spec.byMagnitude b a.
Proof.
  unfold ImpactMetrics.compare, Spec.byMagnitude. intros H.
  apply Qle_bool_false in H. Lqa.lra.
Qed.

Lemma orZero_Num (q : Q) : (JS.orZero (JS.Num q) == q)%Q.
Proof.
  simpl. destruct (Qeq_bool q 0) eqn:E; [|reflexivity].
  apply Qeq_bool_iff in E. now rewrite E.
Qed.

(** C8: the rows of the impact table are exactly the events that carry an
    impact record, each with the fields computed from it, and they stand in
    order of non-increasing absolute percent change (a missing
    [percent_change] counts as [0]). *)
Theorem impact_table_rows
  (events : list Event.t) (changePoints : list ChangePoint.t) :
  let table := ImpactMetrics.impactData events changePoints in
  Permutation (map ImpactMetrics.event table) (filter Event.hasImpact events) /\
  (forall e, In e (map ImpactMetrics.event table) <->
             In e events /\ Event.impact e <> None) /\
  (forall r, In r table -> r = ImpactMetrics.row changePoints (ImpactMetrics.event r)) /\
  StronglySorted Spec.byMagnitude table /\
  (forall r i q, In r table ->
     Event.impact (ImpactMetrics.event r) = Some i ->
     Impact.percent_change i = JS.Num q ->
     (ImpactMetrics.impactMagnitude r == q)%Q).
Proof.
  intros table.
  assert (Hperm : Permutation (map ImpactMetrics.event table)
                    (filter Event.hasImpact events)).
  { unfold table.
    rewrite (Permutation_map ImpactMetrics.event (impactData_perm events changePoints)).
    rewrite map_map. simpl. rewrite map_id. apply Permutation_refl. }
  split; [exact Hperm|]. split; [|split; [|split]].
  - intros e. split.
    + intros He. apply (Permutation_in _ Hperm) in He.
      apply filter_In in He. destruct He as [He Hi]. split; [exact He|].
      unfold Event.hasImpact in Hi. destruct (Event.impact e); [discriminate|discriminate].
    + intros [He Hi]. apply (Permutation_in _ (Permutation_sym Hperm)).
      apply filter_In. split; [exact He|].
      unfold Event.hasImpact. destruct (Event.impact e); [reflexivity|contradiction].
  - intros r Hr. apply impactData_row in Hr.
    destruct Hr as (e & _ & _ & ->). reflexivity.
  - apply sort_sorted.
    + exact byMagnitude_trans.
    + exact compare_le.
    + exact compare_gt.
  - intros r i q Hr Hi Hq. apply impactData_row in Hr.
    destruct Hr as (e & _ & _ & ->). simpl in *.
    unfold Event.impactField. rewrite Hi, Hq. apply orZero_Num.
Qed.

(** Rows of equal absolute percent change keep the order of the events. *)
Example impact_table_ties :
  map (fun r => Event.name (ImpactMetrics.event r))
      (ImpactMetrics.impactData
         [Sample.event 1 "first" (Some (Sample.impact (JS.Num 4) JS.Undefined64 JS.Undefined64));
          Sample.event 2 "second" (Some (Sample.impact (JS.Num (-4)) JS.Undefined64 JS.Undefined64));
          Sample.event 3 "third" (Some (Sample.impact (JS.Num 9) JS.Undefined64 JS.Undefined64))]
         [])
  = ["third"; "first"; "second"]%string.
Proof. reflexivity. Qed.

(** The table of three events, one of them without an impact record. *)
Example impact_table_sample :
  map (fun r => Event.name (ImpactMetrics.event r))
      (ImpactMetrics.impactData [Sample.opec; Sample.bare; Sample.sanctions] [])
  = ["Sanctions"; "OPEC cut"]%string.
Proof. reflexivity. Qed.

(** ** The change-point bar chart *)

Lemma byProbability_trans (a b c : ChangePoint.t) :
  Spec.byProbability a b -> Spec.byProbability b c -> Spec.byProbability a c.
Proof. unfold Spec.byProbability. intros H1 H2. eapply Qle_trans; eassumption. Qed.

Lemma probability_le (a b : ChangePoint.t) :
  Qle_bool (ChangePointChart.compare a b) 0 = true -> Spec.byProbability a b.
Proof.
  unfold ChangePointChart.compare, Spec.byProbability. intros H.
  apply Qle_bool_iff in H. Lqa.lra.
Qed.

Lemma probability_gt (a b : ChangePoint.t) :
  Qle_bool (ChangePointChart.compare a b) 0 = false -> Spec.byProbability b a.
Proof.
  unfold ChangePointChart.compare, Spec.byProbability. intros H.
  apply Qle_bool_false in H. Lqa.lra.
Qed.

Lemma sorted_shown (changePoints : list ChangePoint.t) :
  map ChangePointChart.cp (ChangePointChart.sorted changePoints)
  = firstn 10 (JS.sort ChangePointChart.compare changePoints).
Proof.
  unfold ChangePointChart.sorted, JS.mapi. apply mapFrom_project.
  intros x i. reflexivity.
Qed.

Lemma sorted_topTen (changePoints : list ChangePoint.t) :
  Spec.topTen changePoints (ChangePointChart.sorted changePoints) /\
  List.length (ChangePointChart.sorted changePoints)
  = Nat.min 10 (List.length changePoints).
Proof.
  pose proof (sort_sorted ChangePointChart.compare Spec.byProbability
                byProbability_trans probability_le probability_gt changePoints) as HS.
  pose proof (firstn_skipn 10 (JS.sort ChangePointChart.compare changePoints)) as Hcut.
  assert (Hlen : List.length (ChangePointChart.sorted changePoints)
                 = Nat.min 10 (List.length changePoints)).
  { unfold ChangePointChart.sorted, JS.mapi.
    rewrite mapFrom_length, length_firstn, sort_length. reflexivity. }
  split; [|exact Hlen].
  unfold Spec.topTen. rewrite sorted_shown. rewrite <- Hcut in HS.
  split; [rewrite Hlen; apply Nat.le_min_l|].
  split; [exact (StronglySorted_app_left _ _ _ HS)|].
  exists (skipn 10 (JS.sort ChangePointChart.compare changePoints)). split.
  - rewrite Hcut. apply sort_perm.
  - intros s r. exact (StronglySorted_app_cross _ _ _ HS s r).
Qed.

(** C9, as the code has it: for a change-point list that is not empty the
    chart displays its [min 10 n] most probable change points, ordered by
    non-increasing probability; for an empty list the effect leaves the
    chart as it was. *)
Theorem chart_top_ten_when_nonempty
  (changePoints : list ChangePoint.t) (chartData : list ChangePointChart.Bar) :
  (changePoints <> [] ->
   Spec.topTen changePoints (ChangePointChart.effect changePoints chartData) /\
   List.length (ChangePointChart.effect changePoints chartData)
   = Nat.min 10 (List.length changePoints)) /\
  ChangePointChart.effect [] chartData = chartData.
Proof.
  split; [|reflexivity].
  intros Hne. destruct changePoints as [|c l]; [contradiction|].
  apply sorted_topTen.
Qed.

Lemma chart_top_ten_when_nonempty_witness :
  Spec.topTen [Sample.far; Sample.close]
    (ChangePointChart.effect [Sample.far; Sample.close] []) /\
  List.length (ChangePointChart.effect [Sample.far; Sample.close] []) = 2%nat.
Proof.
  apply (proj1 (chart_top_ten_when_nonempty [Sample.far; Sample.close] [])).
  discriminate.
Defined.

(** C9 as stated fails for an empty list that follows a list with a change
    point: the bar of the earlier list stays on the chart. *)
Lemma chart_keeps_bars_on_empty_list :
  map ChangePointChart.cp (ChangePointChart.chartAfter [[Sample.far]; []]) = [Sample.far] /\
  ~ Spec.topTen [] (ChangePointChart.chartAfter [[Sample.far]; []]).
Proof.
  split; [reflexivity|].
  intros (_ & _ & rest & Hperm & _).
  apply Permutation_sym, Permutation_nil in Hperm. discriminate.
Qed.

(** Twelve change points: the ten most probable are shown, the most
    probable first, whatever their dates. *)
Example chart_of_twelve :
  map (fun b => ChangePoint.date (ChangePointChart.cp b))
      (ChangePointChart.chartAfter
         [map (fun n => Sample.changePoint n (inject_Z n / 20)) 
              [1; 12; 3; 4; 5; 6; 7; 8; 9; 10; 11; 2]])
  = map Moment.day [12; 11; 10; 9; 8; 7; 6; 5; 4; 3].
Proof. reflexivity. Qed.

(** ** The volatility change and the rendering of a row *)

Lemma sub_nan_l (x : float) : (PrimFloat.nan - x)%float = PrimFloat.nan.
Proof. apply Prim2SF_inj. rewrite sub_spec. reflexivity. Qed.

Lemma sub_nan_r (x : float) : (x - PrimFloat.nan)%float = PrimFloat.nan.
Proof.
  apply Prim2SF_inj. rewrite sub_spec.
  replace (Prim2SF PrimFloat.nan) with S754_nan by reflexivity.
  destruct (Prim2SF x); reflexivity.
Qed.

Lemma numOrZero_not_nan (x : JS.number) :
  PrimFloat.is_nan (JS.numOrZero x) = false.
Proof.
  unfold JS.numOrZero, JS.truthy.
  destruct (PrimFloat.eqb x 0); [reflexivity|].
  destruct (PrimFloat.is_nan x) eqn:E; [reflexivity | exact E].
Qed.

Lemma volatilityChange_numbers (changePoints : list ChangePoint.t)
  (e : Event.t) (i : Impact.t) (a b : float) :
  Event.impact e = Some i ->
  Impact.volatility_after i = JS.Num64 a ->
  Impact.volatility_before i = JS.Num64 b ->
  ImpactMetrics.volatilityChange (ImpactMetrics.row changePoints e)
  = JS.numOrZero (a - b)%float.
Proof.
  intros Hi Ha Hb. simpl. unfold Event.impactField64. now rewrite Hi, Ha, Hb.
Qed.

Lemma volatilityChange_missing (changePoints : list ChangePoint.t)
  (e : Event.t) (i : Impact.t) :
  Event.impact e = Some i ->
  Impact.volatility_after i = JS.Undefined64 \/
  Impact.volatility_before i = JS.Undefined64 ->
  ImpactMetrics.volatilityChange (ImpactMetrics.row changePoints e) = 0%float.
Proof.
  intros Hi [H|H]; simpl; unfold Event.impactField64, JS.sub; rewrite Hi, H;
    cbn [JS.toNumber].
  - now rewrite sub_nan_l.
  - now rewrite sub_nan_r.
Qed.

Lemma renderRow_prices (changePoints : list ChangePoint.t)
  (e : Event.t) (i : Impact.t) (b a : Q) :
  Event.impact e = Some i ->
  Impact.price_before i = JS.Num b ->
  Impact.price_after i = JS.Num a ->
  exists cells,
    ImpactMetrics.renderRow (ImpactMetrics.row changePoints e) = JS.Ok cells /\
    ImpactMetrics.volatilityPct cells
    = JS.toFixed64
        (PrimFloat.abs (ImpactMetrics.volatilityChange (ImpactMetrics.row changePoints e))
         * 100)%float 1.
Proof.
  intros Hi Hb Ha. unfold ImpactMetrics.renderRow, ImpactMetrics.priceRangeCell.
  cbn [ImpactMetrics.event ImpactMetrics.row]. rewrite Hi, Hb, Ha.
  cbn [JS.toFixed]. eexists. split; reflexivity.
Qed.

Lemma renderRows_all (rows : list ImpactMetrics.Row) :
  Forall (fun r => exists cells, ImpactMetrics.renderRow r = JS.Ok cells) rows ->
  exists table,
    ImpactMetrics.renderRows rows = JS.Ok table /\
    List.length table = List.length rows.
Proof.
  induction 1 as [|r rows (cells & Hr) _ (table & Ht & Hlen)]; simpl.
  - now exists [].
  - rewrite Hr, Ht. exists (cells :: table). simpl. now rewrite Hlen.
Qed.

(** X1: the volatility change of a row is the binary64 difference
    [volatility_after - volatility_before] of the event's impact record,
    with [0] in the place of a difference that is [0] or [NaN]; it is [0]
    when either field is absent, and it is never [NaN].  The timeline's two
    volatilities default to [0] in the same way.  The table renders
    whenever the impact records have their [price_before] and
    [price_after], whatever else they lack. *)
Theorem volatility_change_defaults
  (events : list Event.t) (changePoints : list ChangePoint.t) :
  (forall r i, In r (ImpactMetrics.impactData events changePoints) ->
     Event.impact (ImpactMetrics.event r) = Some i ->
     (forall a b, Impact.volatility_after i = JS.Num64 a ->
                  Impact.volatility_before i = JS.Num64 b ->
                  (JS.truthy (a - b)%float = true ->
                   ImpactMetrics.volatilityChange r = (a - b)%float) /\
                  (JS.truthy (a - b)%float = false ->
                   ImpactMetrics.volatilityChange r = 0%float)) /\
     (Impact.volatility_after i = JS.Undefined64 \/
      Impact.volatility_before i = JS.Undefined64 ->
      ImpactMetrics.volatilityChange r = 0%float)) /\
  (forall r, In r (ImpactMetrics.impactData events changePoints) ->
     PrimFloat.is_nan (ImpactMetrics.volatilityChange r) = false) /\
  (forall e i n, Event.impact e = Some i ->
     (Impact.volatility_before i = JS.Undefined64 ->
      EventTimeline.volatilityBefore (EventTimeline.point changePoints e n) = 0%float) /\
     (Impact.volatility_after i = JS.Undefined64 ->
      EventTimeline.volatilityAfter (EventTimeline.point changePoints e n) = 0%float)) /\
  ((forall e i, In e events -> Event.impact e = Some i ->
      exists b a, Impact.price_before i = JS.Num b /\ Impact.price_after i = JS.Num a) ->
   exists table,
     ImpactMetrics.renderRows (ImpactMetrics.impactData events changePoints) = JS.Ok table /\
     List.length table = List.length (ImpactMetrics.impactData events changePoints)).
Proof.
  split; [|split; [|split]].
  - intros r i Hr Hi. apply impactData_row in Hr.
    destruct Hr as (e & _ & _ & ->). cbn [ImpactMetrics.event ImpactMetrics.row] in Hi.
    split.
    + intros a b Ha Hb.
      rewrite (volatilityChange_numbers changePoints e i a b Hi Ha Hb).
      unfold JS.numOrZero. split; intros ->; reflexivity.
    + now apply volatilityChange_missing.
  - intros r Hr. apply impactData_row in Hr. destruct Hr as (e & _ & _ & ->).
    apply numOrZero_not_nan.
  - intros e i n Hi. split; intros H; simpl; unfold Event.impactField64;
      rewrite Hi, H; reflexivity.
  - intros Hprices. apply renderRows_all. apply Forall_forall. intros r Hr.
    apply impactData_row in Hr. destruct Hr as (e & He & Himp & ->).
    unfold Event.hasImpact in Himp.
    destruct (Event.impact e) as [i|] eqn:Hi; [|discriminate].
    destruct (Hprices e i He Hi) as (b & a & Hb & Ha).
    destruct (renderRow_prices changePoints e i b a Hi Hb Ha) as (cells & Hc & _).
    now exists cells.
Qed.

Lemma volatility_change_defaults_witness :
  exists table,
    ImpactMetrics.renderRows
      (ImpactMetrics.impactData [Sample.opec; Sample.bare; Sample.sanctions] [Sample.close])
    = JS.Ok table /\
    List.length table
    = List.length
        (ImpactMetrics.impactData [Sample.opec; Sample.bare; Sample.sanctions] [Sample.close]).
Proof.
  apply (proj2 (proj2 (proj2 (volatility_change_defaults
                                [Sample.opec; Sample.bare; Sample.sanctions]
                                [Sample.close])))).
  intros e i [<-|[<-|[<-|[]]]] Hi; simpl in Hi; try discriminate;
    injection Hi as <-; exists 50%Q, 52%Q; split; reflexivity.
Defined.

(** C10 at an impact record without a [price_before]: the volatility
    change of the row is computed, [0.3 - 0.2], but the row's price cell
    calls [toFixed] on [undefined] and the table does not render, where the
    claim has the rendering total over partial impact records. *)
Lemma partial_impact_does_not_render :
  map ImpactMetrics.volatilityChange (ImpactMetrics.impactData [Sample.partial] [])
  = [(0.3 - 0.2)%float] /\
  ImpactMetrics.renderRows (ImpactMetrics.impactData [Sample.partial] []) = JS.TypeError.
Proof. split; reflexivity. Qed.

(** The timeline formats the same record through defaults and renders. *)
Example timeline_renders_partial_impact :
  exists cells,
    EventTimeline.tooltip (EventTimeline.point [] Sample.partial 0) = JS.Ok cells.
Proof. eexists. reflexivity. Qed.

(** A [null] volatility is a number, not an absent field: it counts as [0]
    in the subtraction. *)
Example volatility_change_of_null :
  ImpactMetrics.volatilityChange
    (ImpactMetrics.row []
       (Sample.event 0 "n" (Some (Sample.impact (JS.Num 1) (JS.Num64 0.2) JS.Null64))))
  = (0 - 0.2)%float.
Proof. reflexivity. Qed.

(** The difference is the rounded one: [0.3 - 0.1] is the double below
    [0.2], and the row carries that double. *)
Example volatility_change_is_rounded :
  ImpactMetrics.volatilityChange
    (ImpactMetrics.row []
       (Sample.event 0 "r" (Some (Sample.impact (JS.Num 1) (JS.Num64 0.1) (JS.Num64 0.3)))))
  = 0.19999999999999998%float /\
  (0.19999999999999998 <? 0.2)%float = true.
Proof. split; reflexivity. Qed.

(** ** The probability threshold *)

(** C5, as the code has it: a call without a threshold asks the server for
    [min_probability = 0.8], which is also the dashboard's first filter;
    [0.5] is one of the four selectable floors, not the default.  A
    threshold that is supplied goes to the server unchanged.  The dashboard
    does not filter: when every request of a load resolves it keeps the
    list the server answers with for that threshold, as served, and when
    one of them is rejected it keeps the list it had. *)
Theorem default_threshold_is_080 :
  (Api.min_probability (Api.getChangePoints None) == 8 # 10)%Q /\
  Api.getChangePoints (Some Dashboard.initialMinProbability) = Api.getChangePoints None /\
  (forall p, Api.min_probability (Api.getChangePoints (Some p)) = p) /\
  In (5 # 10) EventFilter.probabilityOptions /\
  In Dashboard.initialMinProbability EventFilter.probabilityOptions /\
  (forall (PriceData Summary VolatilityData Highlight : Type)
          (srv : DashboardState.Server PriceData Summary VolatilityData),
      let st := DashboardState.initial (Highlight := Highlight) in
      let st' := DashboardState.fetchAllData srv st in
      (forall s t p e c v,
          DashboardState.getSummary srv = DashboardState.Resolved s ->
          DashboardState.getEventTypes srv = DashboardState.Resolved t ->
          DashboardState.getPrices srv
            (DashboardState.start (DashboardState.dateRange st))
            (DashboardState.end_ (DashboardState.dateRange st))
          = DashboardState.Resolved p ->
          DashboardState.getEvents srv (DashboardState.selectedEventType st)
            (DashboardState.start (DashboardState.dateRange st))
            (DashboardState.end_ (DashboardState.dateRange st))
          = DashboardState.Resolved e ->
          DashboardState.getChangePoints srv (Api.getChangePoints None)
          = DashboardState.Resolved c ->
          DashboardState.getVolatility srv = DashboardState.Resolved v ->
          DashboardState.changePoints st'
          = DashboardState.orEmpty (Api.change_points c)) /\
      (DashboardState.getSummary srv = DashboardState.Rejected \/
       DashboardState.getEventTypes srv = DashboardState.Rejected \/
       DashboardState.getPrices srv
         (DashboardState.start (DashboardState.dateRange st))
         (DashboardState.end_ (DashboardState.dateRange st))
       = DashboardState.Rejected \/
       DashboardState.getEvents srv (DashboardState.selectedEventType st)
         (DashboardState.start (DashboardState.dateRange st))
         (DashboardState.end_ (DashboardState.dateRange st))
       = DashboardState.Rejected \/
       DashboardState.getChangePoints srv (Api.getChangePoints None)
       = DashboardState.Rejected \/
       DashboardState.getVolatility srv = DashboardState.Rejected ->
       DashboardState.changePoints st' = [])) /\
  (forall (PriceData Summary VolatilityData Highlight : Type)
          (srv : DashboardState.Server PriceData Summary VolatilityData)
          (st : DashboardState.State PriceData Summary VolatilityData Highlight)
          (threshold : Q),
      Qeq_bool threshold (DashboardState.minProbability st) = false ->
      let st' := DashboardState.step srv st (DashboardState.ChangeProbability Highlight threshold) in
      DashboardState.minProbability st' = threshold /\
      (forall p e c,
          DashboardState.getPrices srv
            (DashboardState.start (DashboardState.dateRange st))
            (DashboardState.end_ (DashboardState.dateRange st))
          = DashboardState.Resolved p ->
          DashboardState.getEvents srv (DashboardState.selectedEventType st)
            (DashboardState.start (DashboardState.dateRange st))
            (DashboardState.end_ (DashboardState.dateRange st))
          = DashboardState.Resolved e ->
          DashboardState.getChangePoints srv (Api.getChangePoints (Some threshold))
          = DashboardState.Resolved c ->
          DashboardState.changePoints st'
          = DashboardState.orEmpty (Api.change_points c)) /\
      (DashboardState.getPrices srv
         (DashboardState.start (DashboardState.dateRange st))
         (DashboardState.end_ (DashboardState.dateRange st))
       = DashboardState.Rejected \/
       DashboardState.getEvents srv (DashboardState.selectedEventType st)
         (DashboardState.start (DashboardState.dateRange st))
         (DashboardState.end_ (DashboardState.dateRange st))
       = DashboardState.Rejected \/
       DashboardState.getChangePoints srv (Api.getChangePoints (Some threshold))
       = DashboardState.Rejected ->
       DashboardState.changePoints st' = DashboardState.changePoints st)).
Proof.
  split; [reflexivity|]. split; [reflexivity|]. split; [reflexivity|].
  split; [now left|]. split; [right; now left|]. split.
  - intros PriceData Summary VolatilityData Highlight srv st st'.
    subst st'. unfold DashboardState.fetchAllData.
    change (Api.getChangePoints (Some (DashboardState.minProbability st)))
      with (Api.getChangePoints None).
    split.
    + intros s t p e c v -> -> -> -> -> ->. reflexivity.
    + intros H.
      repeat match goal with
        | |- context [match ?x with
                      | DashboardState.Resolved _ => _
                      | DashboardState.Rejected => _
                      end] => destruct x
        end; try reflexivity.
      exfalso. repeat (destruct H as [H|H]; [discriminate|]). discriminate.
  - intros PriceData Summary VolatilityData Highlight srv st threshold Hne st'.
    subst st'. cbn [DashboardState.step]. rewrite Hne.
    unfold DashboardState.fetchFilteredData.
    cbn [DashboardState.withProbability DashboardState.dateRange
         DashboardState.selectedEventType DashboardState.minProbability].
    split; [|split].
    + repeat match goal with
        | |- context [match ?x with
                      | DashboardState.Resolved _ => _
                      | DashboardState.Rejected => _
                      end] => destruct x
        end; reflexivity.
    + intros p e c -> -> ->. reflexivity.
    + intros H.
      repeat match goal with
        | |- context [match ?x with
                      | DashboardState.Resolved _ => _
                      | DashboardState.Rejected => _
                      end] => destruct x
        end; try reflexivity.
      exfalso. repeat (destruct H as [H|H]; [discriminate|]). discriminate.
Qed.

Lemma default_threshold_is_080_witness :
  DashboardState.changePoints
    (DashboardState.step Fixture.up (DashboardState.initial (Highlight := unit))
       (DashboardState.ChangeProbability unit (9 # 10)))
  = [Sample.far; Sample.close] /\
  DashboardState.changePoints
    (DashboardState.step Fixture.pricesDown (DashboardState.initial (Highlight := unit))
       (DashboardState.ChangeProbability unit (9 # 10)))
  = [].
Proof.
  destruct (proj2 (proj2 (proj2 (proj2 (proj2 (proj2 default_threshold_is_080)))))
              unit unit unit unit Fixture.up DashboardState.initial (9 # 10) eq_refl)
    as (_ & Hup & _).
  destruct (proj2 (proj2 (proj2 (proj2 (proj2 (proj2 default_threshold_is_080)))))
              unit unit unit unit Fixture.pricesDown DashboardState.initial (9 # 10) eq_refl)
    as (_ & _ & Hdown).
  split.
  - apply (Hup tt (Some [Sample.opec])
             (Sample.server [Sample.far; Sample.close]
                (Api.getChangePoints (Some (9 # 10)))));
      reflexivity.
  - apply Hdown. left. reflexivity.
Defined.

(** C5 as stated fails on both counts: the threshold used when the caller
    supplies none is not [0.5], and the change points kept are not only
    those above the threshold: asked for [0.95], the dashboard keeps a
    served change point of probability [0.9]. *)
Lemma default_threshold_is_not_050 :
  ~ (Api.min_probability (Api.getChangePoints None) == 5 # 10)%Q /\
  In Sample.far
     (DashboardState.changePoints
        (DashboardState.step Fixture.up (DashboardState.initial (Highlight := unit))
           (DashboardState.ChangeProbability unit (95 # 100)))) /\
  ~ (95 # 100 < ChangePoint.probability Sample.far)%Q.
Proof.
  split; [vm_compute; discriminate|]. split.
  - simpl. left. reflexivity.
  - vm_compute. discriminate.
Qed.

(** ** Volatility regimes *)

(** C2, as the code has it: the label is a function of the value and the
    baseline alone, the same for a year and for the current value.  It is
    High exactly when the value is above the rounded product
    [baseline * 1.2], Low exactly when it is not and the value is below the
    rounded product [baseline * 0.8], and Normal otherwise; over a baseline
    of [1] the values [1.2] and [0.8] are Normal. *)
Theorem regime_by_rounded_products :
  (forall value avg,
      (VolatilityChart.regime value avg = VolatilityChart.High <->
       (avg * 1.2 <? value)%float = true) /\
      (VolatilityChart.regime value avg = VolatilityChart.Low <->
       (avg * 1.2 <? value)%float = false /\ (value <? avg * 0.8)%float = true) /\
      (VolatilityChart.regime value avg = VolatilityChart.Normal <->
       (avg * 1.2 <? value)%float = false /\ (value <? avg * 0.8)%float = false)) /\
  (forall data y i,
      VolatilityChart.yearRegime (VolatilityChart.yearPoint data y i)
      = VolatilityChart.regime (nth i (VolatilityChart.values data) PrimFloat.nan)
          (VolatilityChart.historical_avg_volatility data)) /\
  (forall data previous,
      VolatilityChart.truthy (VolatilityChart.current_volatility data) = true ->
      VolatilityChart.truthy (VolatilityChart.historical_avg_volatility data) = true ->
      option_map VolatilityChart.label (VolatilityChart.currentRegime data previous)
      = Some (VolatilityChart.regime (VolatilityChart.current_volatility data)
                (VolatilityChart.historical_avg_volatility data))) /\
  VolatilityChart.regime 1.2 1 = VolatilityChart.Normal /\
  VolatilityChart.regime 0.8 1 = VolatilityChart.Normal.
Proof.
  split; [|split; [|split; [|split]]].
  - intros value avg. unfold VolatilityChart.regime.
    destruct (avg * 1.2 <? value)%float, (value <? avg * 0.8)%float;
      repeat split; intros; try reflexivity; try discriminate;
      match goal with H : _ /\ _ |- _ => destruct H; discriminate end.
  - reflexivity.
  - intros data previous Hc Ha. unfold VolatilityChart.currentRegime.
    rewrite Hc, Ha. reflexivity.
  - reflexivity.
  - reflexivity.
Qed.

Lemma regime_by_rounded_products_witness :
  option_map VolatilityChart.label
    (VolatilityChart.currentRegime
       {| VolatilityChart.years := [2020%Z];
          VolatilityChart.values := [0.5%float];
          VolatilityChart.historical_avg_volatility := 0.3%float;
          VolatilityChart.current_volatility := 0.4%float |} None)
  = Some (VolatilityChart.regime 0.4 0.3).
Proof.
  apply (proj1 (proj2 (proj2 regime_by_rounded_products))
           {| VolatilityChart.years := [2020%Z];
              VolatilityChart.values := [0.5%float];
              VolatilityChart.historical_avg_volatility := 0.3%float;
              VolatilityChart.current_volatility := 0.4%float |} None);
    reflexivity.
Defined.

(** C2 as stated fails at the boundary, whether the ratio is the computed
    quotient or the quotient of the numbers the doubles are.  For a value of
    [0.9] over a baseline of [0.75] the computed ratio is exactly [1.2],
    which the rule of the specification labels Normal, and the chart labels
    it High, since [0.75 * 1.2] rounds below [0.9].  For a value of [0.42]
    over a baseline of [0.35] the two doubles have a ratio above [6/5], and
    the chart labels it Normal, since [0.35 * 1.2] rounds up to the value. *)
Lemma ratio_of_exactly_120_is_High :
  ((0.9 / 0.75 =? 1.2)%float = true /\
   VolatilityChart.labelByRatio 0.9 0.75 = VolatilityChart.Normal /\
   VolatilityChart.regime 0.9 0.75 = VolatilityChart.High) /\
  (exists value baseline,
      Spec.exact 0.42 = Some value /\ Spec.exact 0.35 = Some baseline /\
      (0 < baseline)%Q /\ (6 # 5 < value / baseline)%Q /\
      VolatilityChart.regime 0.42 0.35 = VolatilityChart.Normal).
Proof.
  split; [repeat split; reflexivity|].
  eexists. eexists.
  split; [vm_compute; reflexivity|]. split; [vm_compute; reflexivity|].
  split; [reflexivity|]. split; [vm_compute; reflexivity | reflexivity].
Qed.

(** The two rules differ below the boundary of [0.8] as well, and the
    decimal pair [0.16], [0.2] is Low. *)
Example ratio_below_080_is_Normal :
  (0.296 / 0.37 <? 0.8)%float = true /\
  VolatilityChart.labelByRatio 0.296 0.37 = VolatilityChart.Low /\
  VolatilityChart.regime 0.296 0.37 = VolatilityChart.Normal.
Proof. repeat split; reflexivity. Qed.

Example regime_decimal_080_is_Low :
  VolatilityChart.regime 0.16 0.2 = VolatilityChart.Low.
Proof. reflexivity. Qed.

(** A year without a value is Normal, and so is every year when the
    baseline is missing. *)
Example regime_of_missing_value :
  VolatilityChart.regime PrimFloat.nan 0.3 = VolatilityChart.Normal /\
  VolatilityChart.regime 0.5 PrimFloat.nan = VolatilityChart.Normal.
Proof. split; reflexivity. Qed.

(** ** Log returns *)

Lemma log_returns_length (prices : list Preprocessor.PriceObservation) :
  List.length (Preprocessor.log_returns prices) = (List.length prices - 1)%nat.
Proof.
  induction prices as [|p [|q rest] IH]; try reflexivity.
  change (Preprocessor.log_returns (p :: q :: rest))
    with ({| Preprocessor.return_date := Preprocessor.date q;
             Preprocessor.log_return :=
               ln (Preprocessor.price q / Preprocessor.price p) |}
            :: Preprocessor.log_returns (q :: rest)).
  simpl List.length in *. rewrite IH. lia.
Qed.

Lemma log_returns_nth (prices : list Preprocessor.PriceObservation)
  (i : nat) (d : Preprocessor.PriceObservation) (r : Preprocessor.ReturnObservation) :
  (i + 1 < List.length prices)%nat ->
  Preprocessor.log_return (nth i (Preprocessor.log_returns prices) r)
  = ln (Preprocessor.price (nth (i + 1) prices d) / Preprocessor.price (nth i prices d)).
Proof.
  revert i. induction prices as [|p [|q rest] IH]; intros i Hi.
  - simpl in Hi. lia.
  - simpl in Hi. lia.
  - change (Preprocessor.log_returns (p :: q :: rest))
      with ({| Preprocessor.return_date := Preprocessor.date q;
               Preprocessor.log_return :=
                 ln (Preprocessor.price q / Preprocessor.price p) |}
              :: Preprocessor.log_returns (q :: rest)).
    destruct i as [|i].
    + reflexivity.
    + change (nth (S i) (?x :: ?l) ?r) with (nth i l r).
      change (nth (S i + 1) (p :: q :: rest) d) with (nth (i + 1) (q :: rest) d).
      change (nth (S i) (p :: q :: rest) d) with (nth i (q :: rest) d).
      apply IH. simpl in Hi |- *. lia.
Qed.

Lemma datesIncrease_true (prices : list Preprocessor.PriceObservation) :
  Preprocessor.increasingDates prices -> Preprocessor.datesIncrease prices = true.
Proof.
  induction prices as [|p [|q rest] IH]; intros H; try reflexivity.
  destruct H as [Hpq Hrest].
  change (Preprocessor.datesIncrease (p :: q :: rest))
    with ((Preprocessor.date p <? Preprocessor.date q)%Z
          && Preprocessor.datesIncrease (q :: rest)).
  rewrite (IH Hrest). apply Z.ltb_lt in Hpq. now rewrite Hpq.
Qed.

Lemma positive_all (prices : list Preprocessor.PriceObservation) :
  Forall (fun p => (0 < Preprocessor.price p)%R) prices ->
  forallb Preprocessor.positive prices = true.
Proof.
  induction 1 as [|p l Hp _ IH]; simpl; [reflexivity|].
  rewrite IH. unfold Preprocessor.positive.
  destruct (Rlt_dec 0 (Preprocessor.price p)); [reflexivity|contradiction].
Qed.

(** C6: a valid price series (at least two observations, strictly
    increasing dates, strictly positive prices) is accepted, its return
    series is one shorter than the price series, and the return at index
    [i] is [ln (prices[i+1] / prices[i])]. *)
Theorem returns_of_valid_series (prices : list Preprocessor.PriceObservation) :
  Preprocessor.valid prices ->
  exists returns,
    Preprocessor.preprocess prices = inr returns /\
    List.length returns = (List.length prices - 1)%nat /\
    forall i d r, (i < List.length returns)%nat ->
      Preprocessor.log_return (nth i returns r)
      = ln (Preprocessor.price (nth (i + 1) prices d) / Preprocessor.price (nth i prices d)).
Proof.
  intros (Hlen & Hdates & Hpos).
  exists (Preprocessor.log_returns prices). split; [|split].
  - unfold Preprocessor.preprocess.
    assert (E : (List.length prices <? 2)%nat = false) by (apply Nat.ltb_ge; exact Hlen).
    rewrite E, (datesIncrease_true _ Hdates), (positive_all _ Hpos). reflexivity.
  - apply log_returns_length.
  - intros i d r Hi. rewrite log_returns_length in Hi.
    apply log_returns_nth. lia.
Qed.

Lemma returns_of_valid_series_witness :
  exists returns,
    Preprocessor.preprocess Sample.prices = inr returns /\
    List.length returns = 1%nat /\
    forall i d r, (i < List.length returns)%nat ->
      Preprocessor.log_return (nth i returns r)
      = ln (Preprocessor.price (nth (i + 1) Sample.prices d)
            / Preprocessor.price (nth i Sample.prices d)).
Proof.
  apply (returns_of_valid_series Sample.prices).
  split; [|split].
  - simpl. lia.
  - simpl. split; [lia | exact I].
  - repeat constructor; simpl; lra.
Defined.

(** ** Non-maximum suppression *)

Section SummarizerFacts.
Variable cfg : Summarizer.Config.
Variable posterior : list Q.
Hypothesis threshold_nonneg : (0 <= Summarizer.threshold cfg)%Q.

Let n : nat := List.length posterior.
Let again : list Q :=
  Summarizer.asPosterior n (Summarizer.summarize cfg posterior).

Lemma nth_map_seq (g : nat -> Q) (m i : nat) (d : Q) :
  (i < m)%nat -> nth i (map g (seq 0 m)) d = g i.
Proof.
  intros Hi.
  rewrite (nth_indep _ d (g 0%nat)) by now rewrite length_map, length_seq.
  rewrite map_nth, seq_nth by exact Hi. reflexivity.
Qed.

Lemma find_index (mk : nat -> Summarizer.ChangePointAt) (l : list nat) (i : nat) :
  (forall j, Summarizer.index (mk j) = j) ->
  find (fun c => (Summarizer.index c =? i)%nat) (map mk l)
  = if existsb (fun j => (j =? i)%nat) l then Some (mk i) else None.
Proof.
  intros Hmk. induction l as [|j l IH]; simpl; [reflexivity|].
  rewrite Hmk. destruct (j =? i)%nat eqn:E; simpl.
  - apply Nat.eqb_eq in E. now subst.
  - exact IH.
Qed.

Lemma existsb_filter_seq (f : nat -> bool) (m i : nat) :
  (i < m)%nat ->
  existsb (fun j => (j =? i)%nat) (filter f (seq 0 m)) = f i.
Proof.
  intros Hi. destruct (f i) eqn:E.
  - apply existsb_exists. exists i. split; [|apply Nat.eqb_refl].
    apply filter_In. split; [|exact E]. apply in_seq. lia.
  - destruct (existsb _ _) eqn:X; [|reflexivity].
    apply existsb_exists in X. destruct X as (j & Hj & Hji).
    apply Nat.eqb_eq in Hji. subst j.
    apply filter_In in Hj. destruct Hj as [_ Hj]. congruence.
Qed.

Lemma again_length : List.length again = n.
Proof. unfold again, Summarizer.asPosterior. now rewrite length_map, length_seq. Qed.

(** The vector read back from the output keeps the probability of every
    retained index and is [0] elsewhere. *)
Lemma again_probAt (i : nat) :
  (i < n)%nat ->
  Summarizer.probAt again i
  = if Summarizer.retained cfg posterior i then Summarizer.probAt posterior i
    else 0%Q.
Proof.
  intros Hi. unfold Summarizer.probAt at 1, again, Summarizer.asPosterior.
  rewrite nth_map_seq by exact Hi.
  unfold Summarizer.summarize. fold n.
  rewrite find_index by reflexivity.
  rewrite existsb_filter_seq by exact Hi.
  destruct (Summarizer.retained cfg posterior i); reflexivity.
Qed.

Lemma exceeds_zero : Summarizer.exceeds (Summarizer.threshold cfg) 0 = false.
Proof.
  unfold Summarizer.exceeds. apply negb_false_iff, Qle_bool_iff.
  exact threshold_nonneg.
Qed.

Lemma exceeds_positive (p : Q) :
  Summarizer.exceeds (Summarizer.threshold cfg) p = true -> (0 < p)%Q.
Proof.
  unfold Summarizer.exceeds. intros H. apply negb_true_iff, Qle_bool_false in H.
  eapply Qle_lt_trans; eassumption.
Qed.

(** Nothing outranks a retained index after the suppression: a neighbour
    is either retained itself, with its old probability, or [0]. *)
Lemma retained_again (i : nat) :
  (i < n)%nat ->
  Summarizer.retained cfg again i = Summarizer.retained cfg posterior i.
Proof.
  intros Hi. destruct (Summarizer.retained cfg posterior i) eqn:K.
  - unfold Summarizer.retained in K |- *.
    apply andb_true_iff in K. destruct K as [Kx Kall].
    rewrite again_length. fold n in Kall.
    pose proof (again_probAt i Hi) as Pi.
    unfold Summarizer.retained in Pi. fold n in Pi. rewrite Kx, Kall in Pi.
    simpl in Pi.
    apply andb_true_iff. split; [now rewrite Pi|].
    rewrite forallb_forall in Kall |- *. intros j Hj.
    specialize (Kall j Hj). apply in_seq in Hj.
    destruct (Summarizer.near cfg i j); [|reflexivity]. simpl in Kall |- *.
    unfold Summarizer.outranks in Kall |- *. rewrite Pi.
    rewrite again_probAt by lia.
    destruct (Summarizer.retained cfg posterior j); [exact Kall|].
    pose proof (exceeds_positive _ Kx) as Hpos.
    assert (E1 : Qle_bool 0 (Summarizer.probAt posterior i) = true)
      by (apply Qle_bool_iff, Qlt_le_weak, Hpos).
    assert (E2 : Qeq_bool 0 (Summarizer.probAt posterior i) = false).
    { destruct (Qeq_bool 0 (Summarizer.probAt posterior i)) eqn:E; [|reflexivity].
      apply Qeq_bool_iff in E. rewrite <- E in Hpos.
      now apply Qlt_irrefl in Hpos. }
    now rewrite E1, E2.
  - unfold Summarizer.retained at 1.
    rewrite again_probAt by exact Hi. rewrite K, exceeds_zero. reflexivity.
Qed.

Lemma summarize_again :
  Summarizer.summarize cfg again = Summarizer.summarize cfg posterior.
Proof.
  unfold Summarizer.summarize at 1. rewrite again_length.
  rewrite (filter_ext_in (Summarizer.retained cfg again)
             (Summarizer.retained cfg posterior)).
  - unfold Summarizer.summarize. fold n. apply map_ext_in.
    intros i Hi. apply filter_In in Hi. destruct Hi as [Hi K].
    apply in_seq in Hi. rewrite again_probAt by lia. now rewrite K.
  - intros i Hi. apply in_seq in Hi. apply retained_again. lia.
Qed.

End SummarizerFacts.

(** C7: non-maximum suppression is idempotent.  For a threshold that is
    not negative, the summarizer applied to its own output, read as a
    probability vector again, reports the change points it reported the
    first time. *)
Theorem summarize_idempotent (cfg : Summarizer.Config) (posterior : list Q) :
  (0 <= Summarizer.threshold cfg)%Q ->
  Summarizer.summarize cfg
    (Summarizer.asPosterior (List.length posterior)
       (Summarizer.summarize cfg posterior))
  = Summarizer.summarize cfg posterior.
Proof. intros H. now apply summarize_again. Qed.

Lemma summarize_idempotent_witness :
  Summarizer.summarize Summarizer.defaults
    (Summarizer.asPosterior (List.length Sample.posterior)
       (Summarizer.summarize Summarizer.defaults Sample.posterior))
  = Summarizer.summarize Summarizer.defaults Sample.posterior.
Proof.
  apply (summarize_idempotent Summarizer.defaults Sample.posterior).
  vm_compute. discriminate.
Defined.

(** A run of three indices above the threshold collapses to its mode. *)
Example summarize_sample :
  Summarizer.summarize Summarizer.defaults Sample.posterior
  = [ {| Summarizer.index := 2; Summarizer.prob := 9 # 10 |} ].
Proof. reflexivity. Qed.

(** ** The timeline *)

Lemma timestamp_le (a b : EventTimeline.Point) :
  Qle_bool (EventTimeline.compare a b) 0 = true ->
  EventTimeline.timestamp a <= EventTimeline.timestamp b.
Proof.
  unfold EventTimeline.compare. intros H. apply Qle_bool_iff in H.
  change 0%Q with (inject_Z 0) in H. rewrite <- Zle_Qle in H. lia.
Qed.

Lemma timestamp_gt (a b : EventTimeline.Point) :
  Qle_bool (EventTimeline.compare a b) 0 = false ->
  EventTimeline.timestamp b <= EventTimeline.timestamp a.
Proof.
  unfold EventTimeline.compare. intros H. apply Qle_bool_false in H.
  change 0%Q with (inject_Z 0) in H. rewrite <- Zlt_Qlt in H. lia.
Qed.


(** ** Colours, bars and bubbles *)

(** Every comparison of the goal and of the hypotheses turned into an
    inequality. *)
Ltac order_cases :=
  unfold Rel.gt, Rel.lt, Rel.ge in *;
  repeat match goal with
    | |- context [Qle_bool ?a ?b] =>
        let E := fresh "E" in
        destruct (Qle_bool a b) eqn:E;
        [apply Qle_bool_iff in E | apply Qle_bool_false in E]
    | H : context [Qle_bool ?a ?b] |- _ =>
        let E := fresh "E" in
        destruct (Qle_bool a b) eqn:E;
        [apply Qle_bool_iff in E | apply Qle_bool_false in E]
    end;
  cbn [negb] in *.

(** X3: the colour of an impact is neutral exactly between -5 and 5
    percent, both included, a positive colour only above 5 and a negative
    one only below -5, and the scale is symmetric: the opposite impact has
    the mirrored colour. *)
Theorem impact_color_symmetric (percentChange : Q) :
  (ImpactColor.getImpactColor percentChange = ImpactColor.secondary <->
   (-5 <= percentChange)%Q /\ (percentChange <= 5)%Q) /\
  (ImpactColor.getImpactColor percentChange = ImpactColor.success <->
   (20 < percentChange)%Q) /\
  (ImpactColor.getImpactColor percentChange = ImpactColor.danger <->
   (percentChange < -20)%Q) /\
  ImpactColor.getImpactColor (- percentChange)
  = Derived.mirror (ImpactColor.getImpactColor percentChange).
Proof.
  unfold ImpactColor.getImpactColor.
  repeat split; order_cases; intros;
    try reflexivity; try discriminate;
    repeat match goal with H : _ /\ _ |- _ => destruct H end;
    try Lqa.lra; exfalso; Lqa.lra.
Qed.

(** X4: a bar of the change-point chart is highlighted when its date is
    the selected one, whatever its impact; otherwise its colour splits the
    impact scale at the points where the badges of the impact table split
    it. *)
Theorem bar_color_bands (selected : option Z) (entry : ChangePoint.t) :
  (selected = Some (ChangePoint.date entry) ->
   ChangePointDetails.getBarColor selected entry = "#C44E52"%string) /\
  (selected <> Some (ChangePoint.date entry) ->
   ChangePointDetails.getBarColor selected entry
   = Derived.hex (ImpactColor.getImpactColor (ChangePoint.impact_pct entry))).
Proof.
  unfold ChangePointDetails.getBarColor, ImpactColor.getImpactColor. split.
  - intros ->. now rewrite Z.eqb_refl.
  - intros Hne.
    assert (E : match selected with
                | Some d => d =? ChangePoint.date entry
                | None => false
                end = false).
    { destruct selected as [d|]; [|reflexivity].
      apply Z.eqb_neq. intros ->. now apply Hne. }
    rewrite E.
    destruct (Rel.gt (ChangePoint.impact_pct entry) 20); [reflexivity|].
    destruct (Rel.gt (ChangePoint.impact_pct entry) 5); [reflexivity|].
    destruct (Rel.lt (ChangePoint.impact_pct entry) (-20)); [reflexivity|].
    destruct (Rel.lt (ChangePoint.impact_pct entry) (-5)); reflexivity.
Qed.

Lemma bar_color_bands_witness :
  ChangePointDetails.getBarColor (Some (Moment.day 5)) Sample.close = "#C44E52"%string /\
  ChangePointDetails.getBarColor None Sample.close
  = Derived.hex (ImpactColor.getImpactColor (ChangePoint.impact_pct Sample.close)).
Proof.
  split.
  - apply (proj1 (bar_color_bands (Some (Moment.day 5)) Sample.close)). reflexivity.
  - apply (proj2 (bar_color_bands None Sample.close)). discriminate.
Defined.

Lemma Qmin_cases (a b : Q) :
  ((a <= b)%Q /\ Qmin a b == a)%Q \/ ((b < a)%Q /\ Qmin a b == b)%Q.
Proof.
  destruct (Qlt_le_dec b a) as [H|H].
  - right. split; [exact H|]. apply Q.min_r. now apply Qlt_le_weak.
  - left. split; [exact H|]. now apply Q.min_l.
Qed.

Lemma Qmax_cases (a b : Q) :
  ((b <= a)%Q /\ Qmax a b == a)%Q \/ ((a < b)%Q /\ Qmax a b == b)%Q.
Proof.
  destruct (Qlt_le_dec a b) as [H|H].
  - right. split; [exact H|]. apply Q.max_r. now apply Qlt_le_weak.
  - left. split; [exact H|]. now apply Q.max_l.
Qed.

(** X5: the progress bar of a rendered row is filled between 0 and 100:
    by the absolute percent change up to 100, and fully above. *)
Theorem progress_bar_bounds (r : ImpactMetrics.Row) (cells : ImpactMetrics.Cells) :
  ImpactMetrics.renderRow r = JS.Ok cells ->
  (0 <= ImpactMetrics.progress cells)%Q /\
  (ImpactMetrics.progress cells <= 100)%Q /\
  ((Qabs (ImpactMetrics.impactMagnitude r) <= 100)%Q ->
   (ImpactMetrics.progress cells == Qabs (ImpactMetrics.impactMagnitude r))%Q) /\
  ((100 <= Qabs (ImpactMetrics.impactMagnitude r))%Q ->
   (ImpactMetrics.progress cells == 100)%Q).
Proof.
  unfold ImpactMetrics.renderRow. intros H.
  destruct (ImpactMetrics.priceRangeCell (ImpactMetrics.event r)); [|discriminate].
  injection H as <-. cbn [ImpactMetrics.progress].
  pose proof (Qabs_nonneg (ImpactMetrics.impactMagnitude r)) as Hn.
  destruct (Qmin_cases (Qabs (ImpactMetrics.impactMagnitude r)) 100) as [[H1 H2]|[H1 H2]];
    rewrite H2; repeat split; intros; try Lqa.lra; try reflexivity.
Qed.

Lemma progress_bar_bounds_witness :
  exists cells,
    ImpactMetrics.renderRow (ImpactMetrics.row [] Sample.opec) = JS.Ok cells /\
    (0 <= ImpactMetrics.progress cells)%Q /\
    (ImpactMetrics.progress cells <= 100)%Q.
Proof.
  eexists. split; [reflexivity|].
  destruct (progress_bar_bounds (ImpactMetrics.row [] Sample.opec) _ eq_refl)
    as (H0 & H100 & _).
  split; [exact H0 | exact H100].
Defined.

Lemma clamp_cases (m : Q) :
  ((m <= 50)%Q /\ (Qmin (Qmax (m / 5) 10) 50 == 10)%Q) \/
  ((50 <= m)%Q /\ (m <= 250)%Q /\ (Qmin (Qmax (m / 5) 10) 50 == m * (1 # 5))%Q) \/
  ((250 <= m)%Q /\ (Qmin (Qmax (m / 5) 10) 50 == 50)%Q).
Proof.
  assert (Hd : (m / 5 == m * (1 # 5))%Q) by reflexivity.
  destruct (Qmax_cases (m / 5) 10) as [[A1 A2]|[A1 A2]];
    destruct (Qmin_cases (Qmax (m / 5) 10) 50) as [[B1 B2]|[B1 B2]].
  - right. left. repeat split; try Lqa.lra.
  - right. right. split; Lqa.lra.
  - left. split; Lqa.lra.
  - exfalso. Lqa.lra.
Qed.


(** ** The summary by period *)

Lemma filter_disjoint_length {A : Type} (f g : A -> bool) (l : list A) :
  (forall x, f x = true -> g x = false) ->
  (List.length (filter f l) + List.length (filter g l) <= List.length l)%nat.
Proof.
  intros Hfg. induction l as [|x l IH]; simpl; [lia|].
  destruct (f x) eqn:Ef.
  - rewrite (Hfg x Ef). simpl. lia.
  - destruct (g x); simpl; lia.
Qed.

(** X7: every timeline point of the years 1990 to 2029 is counted in the
    card of exactly one decade, and a point of any other year (the series
    begins in 1987) in no card; a card exists exactly for a decade with
    points, and its positive and negative counts together do not exceed its
    count. *)
Theorem decade_cards_cover (year : Z -> Z)
  (timelineData : list EventTimeline.Point) :
  (forall p, In p timelineData ->
     1990 <= TimelineSummary.pointYear year p < 2030 ->
     exists d, In d TimelineSummary.decades /\
               In p (TimelineSummary.decadeEvents year timelineData d) /\
               forall d', In d' TimelineSummary.decades ->
                          In p (TimelineSummary.decadeEvents year timelineData d') ->
                          d' = d) /\
  (forall p d, In d TimelineSummary.decades ->
     TimelineSummary.pointYear year p < 1990 \/ 2030 <= TimelineSummary.pointYear year p ->
     ~ In p (TimelineSummary.decadeEvents year timelineData d)) /\
  (forall d, TimelineSummary.card year timelineData d = None <->
             TimelineSummary.decadeEvents year timelineData d = []) /\
  (forall d c, TimelineSummary.card year timelineData d = Some c ->
     TimelineSummary.decade c = d /\
     TimelineSummary.count c
     = List.length (TimelineSummary.decadeEvents year timelineData d) /\
     (0 < TimelineSummary.count c)%nat /\
     (TimelineSummary.positiveEvents c + TimelineSummary.negativeEvents c
      <= TimelineSummary.count c)%nat).
Proof.
  assert (Hin : forall p d,
             In p (TimelineSummary.decadeEvents year timelineData d) <->
             In p timelineData /\
             d <= TimelineSummary.pointYear year p < d + 10).
  { intros p d. unfold TimelineSummary.decadeEvents. rewrite filter_In.
    rewrite andb_true_iff, Z.leb_le, Z.ltb_lt. tauto. }
  split; [|split; [|split]].
  - intros p Hp Hy.
    assert (Hd : exists d, In d TimelineSummary.decades /\
                           d <= TimelineSummary.pointYear year p < d + 10).
    { unfold TimelineSummary.decades.
      destruct (Z_lt_le_dec (TimelineSummary.pointYear year p) 2000);
        [exists 1990; simpl; split; [tauto | lia]|].
      destruct (Z_lt_le_dec (TimelineSummary.pointYear year p) 2010);
        [exists 2000; simpl; split; [tauto | lia]|].
      destruct (Z_lt_le_dec (TimelineSummary.pointYear year p) 2020);
        [exists 2010; simpl; split; [tauto | lia]|].
      exists 2020; simpl; split; [tauto | lia]. }
    destruct Hd as (d & Hd & Hr). exists d. split; [exact Hd|]. split.
    + apply Hin. now split.
    + intros d' Hd' Hp'. apply Hin in Hp'. destruct Hp' as [_ Hr'].
      unfold TimelineSummary.decades in Hd, Hd'. simpl in Hd, Hd'.
      destruct Hd as [<-|[<-|[<-|[<-|[]]]]];
        destruct Hd' as [<-|[<-|[<-|[<-|[]]]]]; lia.
  - intros p d Hd Hy Hp. apply Hin in Hp. destruct Hp as [_ Hr].
    unfold TimelineSummary.decades in Hd. simpl in Hd.
    destruct Hd as [<-|[<-|[<-|[<-|[]]]]]; lia.
  - intros d. unfold TimelineSummary.card.
    destruct (TimelineSummary.decadeEvents year timelineData d);
      split; intros; try reflexivity; discriminate.
  - intros d c. unfold TimelineSummary.card.
    destruct (TimelineSummary.decadeEvents year timelineData d) as [|x l] eqn:E;
      [discriminate|].
    intros H. injection H as <-.
    cbn [TimelineSummary.decade TimelineSummary.count
         TimelineSummary.positiveEvents TimelineSummary.negativeEvents].
    split; [reflexivity|]. split; [reflexivity|]. split; [simpl; lia|].
    apply (filter_disjoint_length
             (fun e => Rel.gt (EventTimeline.impact e) 0)
             (fun e => Rel.lt (EventTimeline.impact e) 0) (x :: l)).
    intros p Hp. order_cases; try reflexivity; try discriminate.
    exfalso. Lqa.lra.
Qed.

Lemma decade_cards_cover_witness :
  exists d, In d TimelineSummary.decades /\
    In (EventTimeline.point [] Sample.opec 0)
       (TimelineSummary.decadeEvents (fun _ => 2008)
          [EventTimeline.point [] Sample.opec 0] d) /\
    forall d', In d' TimelineSummary.decades ->
      In (EventTimeline.point [] Sample.opec 0)
         (TimelineSummary.decadeEvents (fun _ => 2008)
            [EventTimeline.point [] Sample.opec 0] d') ->
      d' = d.
Proof.
  apply (proj1 (decade_cards_cover (fun _ => 2008)
                  [EventTimeline.point [] Sample.opec 0])).
  - simpl. left. reflexivity.
  - unfold TimelineSummary.pointYear. lia.
Defined.

(** ** What the charts keep *)

Lemma guarded_fold {A B : Type} (p : A -> bool) (f : A -> B)
  (step : B -> A -> B)
  (Hstep : forall st x, step st x = if p x then f x else st)
  (l : list A) (init : B) :
  fold_left step l init
  = match Derived.lastSuch p l with
    | Some x => f x
    | None => init
    end.
Proof.
  revert init. induction l as [|x l IH]; intros init; simpl; [reflexivity|].
  rewrite IH, Hstep. destruct (Derived.lastSuch p l); [reflexivity|].
  destruct (p x); reflexivity.
Qed.

Lemma mapFrom_seq {A B : Type} (f : A -> nat -> B) (g : B -> nat)
  (Hg : forall x i, g (f x i) = S i) (l : list A) (i : nat) :
  map g (JS.mapFrom f i l) = seq (S i) (List.length l).
Proof.
  revert i. induction l as [|x l IH]; simpl; intros i; [reflexivity|].
  now rewrite Hg, IH.
Qed.

(** X8: whatever lists the two charts have received, the bar chart shows
    the ten most probable change points of the last list that was not
    empty, ranked 1, 2, ... in that order, and the timeline shows the events
    of the last event list that was not empty, with the change points that
    came with it; before the first such list both are empty. *)
Theorem charts_keep_last_nonempty :
  (forall history,
      ChangePointChart.chartAfter history
      = match Derived.lastSuch Derived.nonEmpty history with
        | Some changePoints => ChangePointChart.sorted changePoints
        | None => []
        end) /\
  (forall changePoints,
      map ChangePointChart.index (ChangePointChart.sorted changePoints)
      = seq 1 (Nat.min 10 (List.length changePoints))) /\
  (forall history,
      TimelineSummary.timelineAfter history
      = match Derived.lastSuch (fun props => Derived.nonEmpty (fst props)) history with
        | Some props => EventTimeline.processed (fst props) (snd props)
        | None => []
        end).
Proof.
  split; [|split].
  - intros history. unfold ChangePointChart.chartAfter.
    apply (guarded_fold Derived.nonEmpty ChangePointChart.sorted).
    intros st [|c l]; reflexivity.
  - intros changePoints. unfold ChangePointChart.sorted, JS.mapi.
    rewrite mapFrom_seq by reflexivity.
    now rewrite length_firstn, sort_length.
  - intros history. unfold TimelineSummary.timelineAfter.
    apply (guarded_fold (fun props => Derived.nonEmpty (fst props))
             (fun props => EventTimeline.processed (fst props) (snd props))).
    intros st [[|e l] cps]; reflexivity.
Qed.

(** ** The list under the bar chart *)

(** X9: the summary counts as high confidence every change point whose
    badge is the green one and, beside them, exactly the change points of
    probability 0.9, whose badge is the yellow one; it never counts more
    than the total, and the list itemises at most five change points, the
    first of the list as served. *)
Theorem high_confidence_count (changePoints : list ChangePoint.t) :
  ChangePointDetails.highConfidence changePoints
  = (List.length
       (filter (fun cp => Derived.isSuccess (ChangePointDetails.confidence cp))
               changePoints)
     + List.length
         (filter (fun cp => Qeq_bool (ChangePoint.probability cp) (9 # 10))
                 changePoints))%nat /\
  (forall cp, (ChangePoint.probability cp == 9 # 10)%Q ->
              ChangePointDetails.confidence cp = ImpactColor.warning) /\
  (ChangePointDetails.highConfidence changePoints
   <= ChangePointDetails.totalDetected changePoints)%nat /\
  List.length (ChangePointDetails.details changePoints)
  = Nat.min 5 (List.length changePoints) /\
  exists rest, changePoints = ChangePointDetails.details changePoints ++ rest.
Proof.
  split; [|split; [|split; [|split]]].
  - unfold ChangePointDetails.highConfidence.
    induction changePoints as [|cp l IH]; [reflexivity|].
    cbn [filter]. unfold ChangePointDetails.confidence at 1.
    destruct (Qeq_bool (ChangePoint.probability cp) (9 # 10)) eqn:Eq;
      [apply Qeq_bool_iff in Eq | apply Qeq_bool_neq in Eq];
      order_cases; cbn [Derived.isSuccess List.length]; rewrite ?IH;
      try lia; exfalso; Lqa.lra.
  - intros cp Hp. unfold ChangePointDetails.confidence.
    order_cases; try reflexivity; exfalso; Lqa.lra.
  - unfold ChangePointDetails.highConfidence, ChangePointDetails.totalDetected.
    apply filter_length_le.
  - unfold ChangePointDetails.details. apply length_firstn.
  - exists (skipn 5 changePoints). unfold ChangePointDetails.details.
    symmetry. apply firstn_skipn.
Qed.

(** ** Missing values on the volatility chart *)

Lemma ltb_nan_r (x : float) : (x <? PrimFloat.nan)%float = false.
Proof.
  rewrite ltb_spec. replace (Prim2SF PrimFloat.nan) with S754_nan by reflexivity.
  unfold SFltb. destruct (Prim2SF x); reflexivity.
Qed.

Lemma ltb_nan_l (x : float) : (PrimFloat.nan <? x)%float = false.
Proof.
  rewrite ltb_spec. replace (Prim2SF PrimFloat.nan) with S754_nan by reflexivity.
  reflexivity.
Qed.

Lemma regime_nan_value (avg : float) :
  VolatilityChart.regime PrimFloat.nan avg = VolatilityChart.Normal.
Proof. unfold VolatilityChart.regime. now rewrite ltb_nan_r, ltb_nan_l. Qed.

Lemma regime_nan_baseline (value : float) :
  VolatilityChart.regime value PrimFloat.nan = VolatilityChart.Normal.
Proof.
  unfold VolatilityChart.regime.
  replace (PrimFloat.nan * 1.2)%float with PrimFloat.nan by reflexivity.
  replace (PrimFloat.nan * 0.8)%float with PrimFloat.nan by reflexivity.
  now rewrite ltb_nan_r, ltb_nan_l.
Qed.

Lemma mapFrom_nth_error {A B : Type} (f : A -> nat -> B) (l : list A) (i k : nat) :
  nth_error (JS.mapFrom f i l) k
  = option_map (fun x => f x (i + k)%nat) (nth_error l k).
Proof.
  revert i k. induction l as [|x l IH]; intros i [|k]; simpl; try reflexivity.
  - now rewrite Nat.add_0_r.
  - rewrite IH. now rewrite Nat.add_succ_r.
Qed.

(** X10: the volatility chart has one point for each year, in the order of
    the years, with the value at the same index; a year past the end of the
    values has no value and is Normal whatever the baseline, and without a
    baseline every year is Normal.  A current volatility or a baseline that
    is zero or missing leaves the regime card as it was, and the brush opens
    on the last ten years, or on all of them when there are fewer. *)
Theorem volatility_missing_values :
  (forall data,
      List.length (VolatilityChart.formatted data)
      = List.length (VolatilityChart.years data)) /\
  (forall data i y,
      nth_error (VolatilityChart.years data) i = Some y ->
      nth_error (VolatilityChart.formatted data) i
      = Some (VolatilityChart.yearPoint data y i)) /\
  (forall data y i,
      (List.length (VolatilityChart.values data) <= i)%nat ->
      VolatilityChart.volatilityValue (VolatilityChart.yearPoint data y i)
      = PrimFloat.nan /\
      VolatilityChart.yearRegime (VolatilityChart.yearPoint data y i)
      = VolatilityChart.Normal) /\
  (forall data y i,
      VolatilityChart.historical_avg_volatility data = PrimFloat.nan ->
      VolatilityChart.yearRegime (VolatilityChart.yearPoint data y i)
      = VolatilityChart.Normal) /\
  (forall data previous,
      VolatilityChart.current_volatility data = 0%float \/
      VolatilityChart.current_volatility data = PrimFloat.nan \/
      VolatilityChart.historical_avg_volatility data = 0%float \/
      VolatilityChart.historical_avg_volatility data = PrimFloat.nan ->
      VolatilityChart.currentRegime data previous = previous) /\
  (forall chartData,
      0 <= VolatilityMarkers.startIndex chartData /\
      Z.of_nat (List.length chartData) - VolatilityMarkers.startIndex chartData
      = Z.min 10 (Z.of_nat (List.length chartData))).
Proof.
  split; [|split; [|split; [|split; [|split]]]].
  - intros data. unfold VolatilityChart.formatted, JS.mapi. apply mapFrom_length.
  - intros data i y Hy. unfold VolatilityChart.formatted, JS.mapi.
    rewrite mapFrom_nth_error, Hy. reflexivity.
  - intros data y i Hi. cbn [VolatilityChart.yearPoint
      VolatilityChart.volatilityValue VolatilityChart.yearRegime].
    rewrite (nth_overflow _ _ Hi). split; [reflexivity | apply regime_nan_value].
  - intros data y i Ha. cbn [VolatilityChart.yearPoint VolatilityChart.yearRegime].
    rewrite Ha. apply regime_nan_baseline.
  - intros data previous H. unfold VolatilityChart.currentRegime.
    destruct H as [H|[H|[H|H]]]; rewrite H;
      try reflexivity;
      destruct (VolatilityChart.truthy (VolatilityChart.current_volatility data));
      reflexivity.
  - intros chartData. unfold VolatilityMarkers.startIndex. lia.
Qed.

Lemma volatility_missing_values_witness :
  VolatilityChart.yearRegime
    (VolatilityChart.yearPoint
       {| VolatilityChart.years := [2020; 2021];
          VolatilityChart.values := [0.5%float];
          VolatilityChart.historical_avg_volatility := 0.3%float;
          VolatilityChart.current_volatility := 0%float |} 2021 1)
  = VolatilityChart.Normal.
Proof.
  apply (proj1 (proj2 (proj2 volatility_missing_values))
           {| VolatilityChart.years := [2020; 2021];
              VolatilityChart.values := [0.5%float];
              VolatilityChart.historical_avg_volatility := 0.3%float;
              VolatilityChart.current_volatility := 0%float |} 2021 1%nat).
  simpl. lia.
Defined.

(** X11: the volatility chart marks exactly the events that carry an impact
    record and fall in the years 1987 to 2022, in the order of the events,
    and the volatility change of a marker is the one the impact table shows
    for that event. *)
Theorem event_markers_match_table (year : Z -> Z) (events : list Event.t) :
  (forall m, In m (VolatilityMarkers.getEventMarkers year events) <->
     exists e, In e events /\ Event.impact e <> None /\
               1987 <= year (Event.date e) <= 2022 /\
               m = VolatilityMarkers.marker year e) /\
  VolatilityMarkers.getEventMarkers year events
  = map (VolatilityMarkers.marker year)
        (filter (fun e => Event.hasImpact e
                          && ((1987 <=? year (Event.date e))
                              && (year (Event.date e) <=? 2022)))
                events) /\
  (forall changePoints e,
      VolatilityMarkers.volatilityChange (VolatilityMarkers.marker year e)
      = ImpactMetrics.volatilityChange (ImpactMetrics.row changePoints e)).
Proof.
  assert (Heq : VolatilityMarkers.getEventMarkers year events
                = map (VolatilityMarkers.marker year)
                    (filter (fun e => Event.hasImpact e
                                      && ((1987 <=? year (Event.date e))
                                          && (year (Event.date e) <=? 2022)))
                            events)).
  { unfold VolatilityMarkers.getEventMarkers.
    destruct events as [|e0 l]; [reflexivity|].
    generalize (e0 :: l). intros es.
    induction es as [|e es IH]; [reflexivity|].
    cbn [filter]. destruct (Event.hasImpact e); cbn [andb map filter].
    - cbn [VolatilityMarkers.marker VolatilityMarkers.markerYear].
      destruct ((1987 <=? year (Event.date e)) && (year (Event.date e) <=? 2022));
        cbn [map]; now rewrite IH.
    - exact IH. }
  split; [|split; [exact Heq | reflexivity]].
  intros m. rewrite Heq, in_map_iff. split.
  - intros (e & <- & He). apply filter_In in He. destruct He as [He Hc].
    apply andb_true_iff in Hc. destruct Hc as [Hi Hy].
    apply andb_true_iff in Hy. destruct Hy as [H1 H2].
    apply Z.leb_le in H1, H2. exists e. repeat split; try assumption; try lia.
    unfold Event.hasImpact in Hi. destruct (Event.impact e); discriminate.
  - intros (e & He & Hi & Hy & ->). exists e. split; [reflexivity|].
    apply filter_In. split; [exact He|].
    unfold Event.hasImpact. destruct (Event.impact e); [|contradiction].
    simpl. apply andb_true_iff. split; apply Z.leb_le; lia.
Qed.

(** ** The price chart *)

(** X12: when the price data has its dates and its prices, the chart has
    one point for each date, in order, with the price, the moving average
    and the return found at the same index ([undefined] past the end of an
    array, or when the array is missing); otherwise the chart keeps the
    points it had. *)
Theorem price_points_align {D : Type} (data : option (PriceChart.Data (D := D)))
  (chartData : list PriceChart.Point) :
  (forall d ds ps,
      data = Some d -> PriceChart.dates d = Some ds -> PriceChart.prices d = Some ps ->
      List.length (PriceChart.effect data chartData) = List.length ds /\
      forall i x, nth_error ds i = Some x ->
        nth_error (PriceChart.effect data chartData) i
        = Some {| PriceChart.date := x;
                  PriceChart.price := nth i ps JS.Undefined;
                  PriceChart.ma30 := PriceChart.optAt (PriceChart.ma_30d d) i;
                  PriceChart.pointReturns := PriceChart.optAt (PriceChart.returns d) i |}) /\
  (data = None \/
   (exists d, data = Some d /\
              (PriceChart.dates d = None \/ PriceChart.prices d = None)) ->
   PriceChart.effect data chartData = chartData).
Proof.
  split.
  - intros d ds ps -> Hd Hp. unfold PriceChart.effect. rewrite Hd, Hp.
    unfold JS.mapi. split; [apply mapFrom_length|].
    intros i x Hx. rewrite mapFrom_nth_error, Hx. reflexivity.
  - intros [->|(d & -> & [H|H])]; unfold PriceChart.effect.
    + reflexivity.
    + now rewrite H.
    + rewrite H. destruct (PriceChart.dates d); reflexivity.
Qed.

Lemma price_points_align_witness :
  List.length (PriceChart.effect (Some Fixture.priceData) []) = 3%nat /\
  forall i x,
    nth_error ["2020-03-06"; "2020-03-09"; "2020-03-10"]%string i = Some x ->
    nth_error (PriceChart.effect (Some Fixture.priceData) []) i
    = Some {| PriceChart.date := x;
              PriceChart.price := nth i [JS.Num 45; JS.Num 34; JS.Num 37] JS.Undefined;
              PriceChart.ma30 := PriceChart.optAt None i;
              PriceChart.pointReturns := PriceChart.optAt None i |}.
Proof.
  apply (proj1 (price_points_align (Some Fixture.priceData) []) Fixture.priceData
           ["2020-03-06"; "2020-03-09"; "2020-03-10"]%string
           [JS.Num 45; JS.Num 34; JS.Num 37]);
    reflexivity.
Defined.

Section EventDots.
Context {D : Type} (same : D -> D -> bool).
Hypothesis same_eq : forall a b, same a b = true <-> a = b.

Lemma indexOf_None (x : D) (ds : list D) :
  PriceChart.indexOf same x ds = None <-> ~ In x ds.
Proof.
  induction ds as [|y ds IH]; simpl.
  - split; [intros _ [] | reflexivity].
  - destruct (same y x) eqn:E.
    + apply same_eq in E. split; [discriminate|]. intros H. exfalso. apply H. now left.
    + assert (Hne : y <> x) by (intros H; apply same_eq in H; congruence).
      destruct (PriceChart.indexOf same x ds) as [i|].
      * split; [discriminate|]. intros H. exfalso.
        assert (Hn : ~ In x ds) by (intros Hin; apply H; now right).
        apply IH in Hn. discriminate.
      * split; [|reflexivity]. intros _ [H|H]; [contradiction|].
        now apply (proj1 IH).
Qed.

Lemma indexOf_Some (x : D) (ds : list D) (i : nat) :
  PriceChart.indexOf same x ds = Some i <-> Derived.firstAt ds x i.
Proof.
  revert i. induction ds as [|y ds IH]; intros i; simpl.
  - split; [discriminate|]. intros [H _]. destruct i; discriminate.
  - destruct (same y x) eqn:E.
    + apply same_eq in E. subst y. split.
      * intros H. injection H as <-. split; [reflexivity|]. intros j Hj. lia.
      * intros [Hi Hfirst]. destruct i as [|i]; [reflexivity|].
        exfalso. apply (Hfirst 0%nat); [lia | reflexivity].
    + assert (Hne : y <> x) by (intros H; apply same_eq in H; congruence).
      destruct (PriceChart.indexOf same x ds) as [k|].
      * split.
        -- intros H. injection H as <-.
           destruct (proj1 (IH k) eq_refl) as [Hk Hfirst]. split; [exact Hk|].
           intros [|j] Hj; simpl; [congruence|]. apply Hfirst. lia.
        -- intros [Hi Hfirst]. destruct i as [|i]; simpl in Hi; [congruence|].
           assert (Hf : Derived.firstAt ds x i).
           { split; [exact Hi|]. intros j Hj. apply (Hfirst (S j)). lia. }
           apply (proj2 (IH i)) in Hf. congruence.
      * split; [discriminate|].
        intros [Hi Hfirst]. destruct i as [|i]; simpl in Hi; [congruence|].
        assert (Hf : Derived.firstAt ds x i).
        { split; [exact Hi|]. intros j Hj. apply (Hfirst (S j)). lia. }
        apply (proj2 (IH i)) in Hf. discriminate.
Qed.

(** X13: the dot of an event is drawn at height 0 when the event's date is
    not one of the dates of the price series (a day without trading), and at
    the price found at the first position of that date otherwise, 0 standing
    for a price that is missing, [null] or 0; without the price data or one
    of its two arrays, the dot cannot be drawn at all. *)
Theorem event_dot_height (data : option (PriceChart.Data (D := D))) (eventDate : D) :
  (forall d ds ps,
      data = Some d -> PriceChart.dates d = Some ds -> PriceChart.prices d = Some ps ->
      (~ In eventDate ds -> PriceChart.dotY same data eventDate = JS.Ok 0%Q) /\
      (forall i, Derived.firstAt ds eventDate i ->
         PriceChart.dotY same data eventDate
         = JS.Ok (JS.orZero (nth i ps JS.Undefined)))) /\
  (data = None \/
   (exists d, data = Some d /\
              (PriceChart.dates d = None \/ PriceChart.prices d = None)) ->
   PriceChart.dotY same data eventDate = JS.TypeError).
Proof.
  split.
  - intros d ds ps -> Hd Hp. unfold PriceChart.dotY. rewrite Hd, Hp. split.
    + intros Hn. apply indexOf_None in Hn. now rewrite Hn.
    + intros i Hi. apply indexOf_Some in Hi. now rewrite Hi.
  - intros [->|(d & -> & [H|H])]; unfold PriceChart.dotY.
    + reflexivity.
    + rewrite H. destruct (PriceChart.prices d); reflexivity.
    + now rewrite H.
Qed.
End EventDots.

Lemma event_dot_height_witness :
  PriceChart.dotY String.eqb (Some Fixture.priceData) "2020-03-08"%string = JS.Ok 0%Q /\
  PriceChart.dotY String.eqb (Some Fixture.priceData) "2020-03-09"%string
  = JS.Ok (JS.orZero (JS.Num 34)).
Proof.
  destruct (proj1 (event_dot_height String.eqb String.eqb_eq
                     (Some Fixture.priceData) "2020-03-08"%string)
              Fixture.priceData _ _ eq_refl eq_refl eq_refl) as [Hoff _].
  destruct (proj1 (event_dot_height String.eqb String.eqb_eq
                     (Some Fixture.priceData) "2020-03-09"%string)
              Fixture.priceData _ _ eq_refl eq_refl eq_refl) as [_ Hon].
  split.
  - apply Hoff. simpl. intros [H|[H|[H|[]]]]; discriminate.
  - apply (Hon 1%nat). split; [reflexivity|].
    intros [|j] Hj; [simpl; discriminate | lia].
Defined.

(** ** Loading the dashboard *)

Section DashboardFacts.
Context {PriceData Summary VolatilityData Highlight : Type}.
Variable srv : DashboardState.Server PriceData Summary VolatilityData.

(** X14: when a run of the initial load is over the spinner is gone and
    the filters are as they were.  When all six requests resolved there is
    no error, the charts are shown and the six slices hold the answers;
    when one of them was rejected the error is set, the alert is shown and
    none of the six slices has changed.  One of the two is always the
    case. *)
Theorem initial_load_all_or_nothing
  (st : DashboardState.State PriceData Summary VolatilityData Highlight) :
  let st' := DashboardState.fetchAllData srv st in
  DashboardState.loading st' = false /\
  DashboardState.render st' <> DashboardState.Spinner /\
  Derived.sameFilters st st' /\
  DashboardState.highlightedEvent st' = DashboardState.highlightedEvent st /\
  (forall s t p e c v,
      DashboardState.getSummary srv = DashboardState.Resolved s ->
      DashboardState.getEventTypes srv = DashboardState.Resolved t ->
      DashboardState.getPrices srv
        (DashboardState.start (DashboardState.dateRange st))
        (DashboardState.end_ (DashboardState.dateRange st))
      = DashboardState.Resolved p ->
      DashboardState.getEvents srv (DashboardState.selectedEventType st)
        (DashboardState.start (DashboardState.dateRange st))
        (DashboardState.end_ (DashboardState.dateRange st))
      = DashboardState.Resolved e ->
      DashboardState.getChangePoints srv
        (Api.getChangePoints (Some (DashboardState.minProbability st)))
      = DashboardState.Resolved c ->
      DashboardState.getVolatility srv = DashboardState.Resolved v ->
      DashboardState.error st' = None /\
      DashboardState.render st' = DashboardState.Charts /\
      DashboardState.summary st' = Some s /\
      DashboardState.eventTypes st' = DashboardState.orEmpty t /\
      DashboardState.priceData st' = Some p /\
      DashboardState.events st' = DashboardState.orEmpty e /\
      DashboardState.changePoints st' = DashboardState.orEmpty (Api.change_points c) /\
      DashboardState.volatilityData st' = Some v) /\
  (Derived.someRejected srv st ->
   DashboardState.error st'
   = Some "Failed to load dashboard data. Please try again."%string /\
   DashboardState.render st'
   = DashboardState.Alert "Failed to load dashboard data. Please try again." /\
   Derived.sameData st st') /\
  (Derived.someRejected srv st \/
   exists s t p e c v,
     DashboardState.getSummary srv = DashboardState.Resolved s /\
     DashboardState.getEventTypes srv = DashboardState.Resolved t /\
     DashboardState.getPrices srv
       (DashboardState.start (DashboardState.dateRange st))
       (DashboardState.end_ (DashboardState.dateRange st))
     = DashboardState.Resolved p /\
     DashboardState.getEvents srv (DashboardState.selectedEventType st)
       (DashboardState.start (DashboardState.dateRange st))
       (DashboardState.end_ (DashboardState.dateRange st))
     = DashboardState.Resolved e /\
     DashboardState.getChangePoints srv
       (Api.getChangePoints (Some (DashboardState.minProbability st)))
     = DashboardState.Resolved c /\
     DashboardState.getVolatility srv = DashboardState.Resolved v).
Proof.
  unfold DashboardState.fetchAllData, Derived.sameFilters, Derived.sameData,
    Derived.someRejected, DashboardState.render.
  repeat match goal with
    | |- context [match ?x with
                  | DashboardState.Resolved _ => _
                  | DashboardState.Rejected => _
                  end] => destruct x
    end;
    cbn; (split; [reflexivity|]); (split; [discriminate|]);
    (split; [repeat split|]); (split; [reflexivity|]);
    (split; [intros s t p e c v; intros; try discriminate;
             repeat match goal with
               | H : DashboardState.Resolved _ = DashboardState.Resolved _ |- _ =>
                   injection H as <-
               end;
             repeat split; reflexivity|]);
    (split; [intros H; try (repeat split; reflexivity);
             exfalso; repeat (destruct H as [H|H]; [discriminate|]); discriminate|]);
    try (right; do 6 eexists; repeat split; reflexivity);
    left; tauto.
Qed.

Lemma fetchFilteredData_frame
  (st : DashboardState.State PriceData Summary VolatilityData Highlight) :
  let st' := DashboardState.fetchFilteredData srv st in
  DashboardState.loading st' = DashboardState.loading st /\
  DashboardState.error st' = DashboardState.error st /\
  DashboardState.summary st' = DashboardState.summary st /\
  DashboardState.volatilityData st' = DashboardState.volatilityData st /\
  DashboardState.eventTypes st' = DashboardState.eventTypes st.
Proof.
  unfold DashboardState.fetchFilteredData.
  repeat match goal with
    | |- context [match ?x with
                  | DashboardState.Resolved _ => _
                  | DashboardState.Rejected => _
                  end] => destruct x
    end;
    cbn; repeat split; reflexivity.
Qed.

Lemma step_frame
  (st : DashboardState.State PriceData Summary VolatilityData Highlight)
  (a : DashboardState.Action Highlight) :
  let st' := DashboardState.step srv st a in
  DashboardState.loading st' = DashboardState.loading st /\
  DashboardState.error st' = DashboardState.error st /\
  DashboardState.summary st' = DashboardState.summary st /\
  DashboardState.volatilityData st' = DashboardState.volatilityData st /\
  DashboardState.eventTypes st' = DashboardState.eventTypes st.
Proof.
  destruct a as [s e|t|p|h]; cbn [DashboardState.step].
  - apply (fetchFilteredData_frame (DashboardState.withDateRange _ _ _ _ _ st)).
  - destruct (String.eqb t (DashboardState.selectedEventType st));
      [repeat split; reflexivity|].
    apply (fetchFilteredData_frame (DashboardState.withEventType _ _ _ _ _ st)).
  - destruct (Qeq_bool p (DashboardState.minProbability st));
      [repeat split; reflexivity|].
    apply (fetchFilteredData_frame (DashboardState.withProbability _ _ _ _ _ st)).
  - repeat split; reflexivity.
Qed.

Lemma step_data_when_down
  (Hdown : forall s e, DashboardState.getPrices srv s e = DashboardState.Rejected)
  (st : DashboardState.State PriceData Summary VolatilityData Highlight)
  (a : DashboardState.Action Highlight) :
  Derived.sameData st (DashboardState.step srv st a).
Proof.
  unfold Derived.sameData.
  destruct a as [s e|t|p|h]; cbn [DashboardState.step];
    unfold DashboardState.fetchFilteredData; cbn;
    rewrite ?Hdown;
    try destruct (String.eqb t (DashboardState.selectedEventType st));
    try destruct (Qeq_bool p (DashboardState.minProbability st));
    rewrite ?Hdown; repeat split; reflexivity.
Qed.

(** X15: no change of the filters and no highlight, with what they fetch,
    ever touches the spinner flag, the error, the summary, the volatility
    data or the event types: an alert stays on the screen whatever the
    later requests answer.  And while the price endpoint rejects, the
    prices, events and change points on the screen stay as they were and no
    error appears. *)
Theorem filters_never_clear_the_alert
  (st : DashboardState.State PriceData Summary VolatilityData Highlight)
  (actions : list (DashboardState.Action Highlight)) :
  let st' := DashboardState.run srv st actions in
  DashboardState.loading st' = DashboardState.loading st /\
  DashboardState.error st' = DashboardState.error st /\
  DashboardState.render st' = DashboardState.render st /\
  DashboardState.summary st' = DashboardState.summary st /\
  DashboardState.volatilityData st' = DashboardState.volatilityData st /\
  DashboardState.eventTypes st' = DashboardState.eventTypes st /\
  ((forall s e, DashboardState.getPrices srv s e = DashboardState.Rejected) ->
   Derived.sameData st st').
Proof.
  revert st. unfold DashboardState.run.
  induction actions as [|a actions IH]; intros st; simpl.
  - unfold Derived.sameData. repeat split; reflexivity.
  - destruct (IH (DashboardState.step srv st a)) as (H1 & H2 & H3 & H4 & H5 & H6 & H7).
    destruct (step_frame st a) as (S1 & S2 & S4 & S5 & S6).
    assert (S3 : DashboardState.render (DashboardState.step srv st a)
                 = DashboardState.render st)
      by (unfold DashboardState.render; now rewrite S1, S2).
    split; [congruence|]. split; [congruence|]. split; [congruence|].
    split; [congruence|]. split; [congruence|]. split; [congruence|].
    intros Hdown. specialize (H7 Hdown).
    pose proof (step_data_when_down Hdown st a) as H0.
    unfold Derived.sameData in *.
    destruct H0 as (A1 & A2 & A3 & A4 & A5 & A6).
    destruct H7 as (B1 & B2 & B3 & B4 & B5 & B6).
    repeat split; congruence.
Qed.

End DashboardFacts.

Lemma initial_load_all_or_nothing_witness :
  DashboardState.render
    (DashboardState.fetchAllData Fixture.up (DashboardState.initial (Highlight := unit)))
  = DashboardState.Charts /\
  DashboardState.changePoints
    (DashboardState.fetchAllData Fixture.up (DashboardState.initial (Highlight := unit)))
  = [Sample.far; Sample.close] /\
  DashboardState.render
    (DashboardState.fetchAllData Fixture.pricesDown
       (DashboardState.initial (Highlight := unit)))
  = DashboardState.Alert "Failed to load dashboard data. Please try again." /\
  Derived.sameData
    (DashboardState.initial (Highlight := unit))
    (DashboardState.fetchAllData Fixture.pricesDown DashboardState.initial).
Proof.
  destruct (initial_load_all_or_nothing Fixture.up
              (DashboardState.initial (Highlight := unit)))
    as (_ & _ & _ & _ & Hup & _ & _).
  destruct (initial_load_all_or_nothing Fixture.pricesDown
              (DashboardState.initial (Highlight := unit)))
    as (_ & _ & _ & _ & _ & Hdown & _).
  destruct (Hup tt (Some Fixture.eventTypes) tt (Some [Sample.opec])
              (Sample.server [Sample.far; Sample.close] (Api.getChangePoints None)) tt
              eq_refl eq_refl eq_refl eq_refl eq_refl eq_refl)
    as (_ & Hcharts & _ & _ & _ & _ & Hcps & _).
  destruct Hdown as (_ & Halert & Hsame).
  - right. right. left. reflexivity.
  - split; [exact Hcharts|]. split; [exact Hcps|]. split; [exact Halert | exact Hsame].
Defined.

Lemma filters_never_clear_the_alert_witness :
  Derived.sameData
    (DashboardState.initial (Highlight := unit))
    (DashboardState.run Fixture.down DashboardState.initial
       [DashboardState.ChangeProbability unit (9 # 10);
        DashboardState.ChangeEventType unit "Policy Decision"]).
Proof.
  apply (filters_never_clear_the_alert Fixture.down DashboardState.initial
           [DashboardState.ChangeProbability unit (9 # 10);
            DashboardState.ChangeEventType unit "Policy Decision"]).
  reflexivity.
Defined.

(** ** The preset ranges *)

Lemma daysInMonth_not_february (y y' m : Z) :
  m <> 1 -> DateRangePicker.daysInMonth y m = DateRangePicker.daysInMonth y' m.
Proof.
  intros Hm. unfold DateRangePicker.daysInMonth.
  destruct (Z.eqb_spec m 1); [contradiction | reflexivity].
Qed.

Lemma february_days (y : Z) :
  DateRangePicker.daysInMonth y 1 = if DateRangePicker.leap y then 29 else 28.
Proof. reflexivity. Qed.

Lemma leap_multiple_of_four (y : Z) : DateRangePicker.leap y = true -> y mod 4 = 0.
Proof.
  unfold DateRangePicker.leap. intros H. apply andb_true_iff in H.
  destruct H as [H _]. now apply Z.eqb_eq in H.
Qed.

Lemma not_leap_back (y k : Z) :
  DateRangePicker.leap y = true -> k mod 4 <> 0 -> DateRangePicker.leap (y - k) = false.
Proof.
  intros Hy Hk. apply leap_multiple_of_four in Hy.
  unfold DateRangePicker.leap.
  destruct (Z.eqb_spec ((y - k) mod 4) 0) as [E|E]; [|reflexivity].
  exfalso. apply Hk. rewrite Zminus_mod, Hy in E.
  rewrite Z.sub_0_l in E.
  destruct (Z.eq_dec (k mod 4) 0) as [|Hne]; [assumption|].
  pose proof (Z.mod_pos_bound k 4 ltac:(lia)) as Hb.
  rewrite Z.mod_opp_l_nz in E by (rewrite ?Z.mod_mod; lia).
  rewrite Z.mod_mod in E by lia. lia.
Qed.

Lemma setFullYear_back (today : DateRangePicker.Date) (k : Z) :
  DateRangePicker.valid today -> k mod 4 <> 0 ->
  let start :=
    DateRangePicker.setFullYear today (DateRangePicker.year today - k) in
  DateRangePicker.year start = DateRangePicker.year today - k /\
  DateRangePicker.valid start /\
  (DateRangePicker.month today <> 1 \/ DateRangePicker.day today <> 29 ->
   DateRangePicker.month start = DateRangePicker.month today /\
   DateRangePicker.day start = DateRangePicker.day today) /\
  (DateRangePicker.month today = 1 -> DateRangePicker.day today = 29 ->
   DateRangePicker.month start = 2 /\ DateRangePicker.day start = 1).
Proof.
  destruct today as [y m d]. unfold DateRangePicker.valid. cbn.
  intros [Hm Hd] Hk. unfold DateRangePicker.setFullYear. cbn.
  destruct (Z.eq_dec m 1) as [->|Hother].
  - rewrite february_days in *.
    assert (Hleap : DateRangePicker.leap y = true ->
                    DateRangePicker.leap (y - k) = false)
      by (intros H; now apply not_leap_back).
    destruct (DateRangePicker.leap y);
      destruct (DateRangePicker.leap (y - k)) eqn:Hl;
      try (specialize (Hleap eq_refl); discriminate);
      match goal with
      | |- context [d <=? ?n] => destruct (Z.leb_spec d n)
      end;
      cbn; rewrite ?february_days, ?Hl; cbn; repeat split; intros; lia.
  - rewrite (daysInMonth_not_february (y - k) y m Hother).
    destruct (Z.leb_spec d (DateRangePicker.daysInMonth y m)); [|lia].
    cbn. rewrite (daysInMonth_not_february (y - k) y m Hother).
    repeat split; intros; try lia.
Qed.

(** X16: on a day that exists, the presets 1Y, 5Y and 10Y hand over a
    range that ends today and starts on an existing day, 1, 5 or 10 years
    earlier: on the same day of the same month, except on the 29th of
    February, when it starts on the 1st of March.  ALL starts on the 20th
    of May 1987, and any other preset gives today for both ends. *)
Theorem preset_ranges (today : DateRangePicker.Date) :
  DateRangePicker.valid today ->
  (forall preset k,
      In (preset, k) [("1Y"%string, 1); ("5Y"%string, 5); ("10Y"%string, 10)] ->
      let range := DateRangePicker.handlePresetRange today preset in
      snd range = today /\
      DateRangePicker.year (fst range) = DateRangePicker.year today - k /\
      DateRangePicker.valid (fst range) /\
      DateRangePicker.before (fst range) (snd range) /\
      (DateRangePicker.month today <> 1 \/ DateRangePicker.day today <> 29 ->
       DateRangePicker.month (fst range) = DateRangePicker.month today /\
       DateRangePicker.day (fst range) = DateRangePicker.day today) /\
      (DateRangePicker.month today = 1 -> DateRangePicker.day today = 29 ->
       DateRangePicker.month (fst range) = 2 /\ DateRangePicker.day (fst range) = 1)) /\
  DateRangePicker.handlePresetRange today "ALL"
  = (DateRangePicker.firstDay, today) /\
  (forall preset,
      ~ In preset ["1Y"; "5Y"; "10Y"; "ALL"]%string ->
      DateRangePicker.handlePresetRange today preset = (today, today)).
Proof.
  intros Hv. split; [|split].
  - intros preset k Hin.
    assert (Hk : k mod 4 <> 0 /\
                 DateRangePicker.handlePresetRange today preset
                 = (DateRangePicker.setFullYear today (DateRangePicker.year today - k),
                    today)).
    { destruct Hin as [H|[H|[H|[]]]]; injection H as <- <-;
        (split; [discriminate | reflexivity]). }
    destruct Hk as [Hk ->]. cbn [fst snd].
    destruct (setFullYear_back today k Hv Hk) as (Hy & Hvalid & Hsame & Hfeb).
    repeat split; try assumption; try (apply Hsame; assumption);
      try (apply Hfeb; assumption).
    + apply Hvalid.
    + apply Hvalid.
    + apply Hvalid.
    + apply Hvalid.
    + left. rewrite Hy.
      destruct Hin as [H|[H|[H|[]]]]; injection H as _ <-; lia.
  - reflexivity.
  - intros preset Hn. unfold DateRangePicker.handlePresetRange.
    destruct (String.eqb_spec preset "1Y");
      [exfalso; apply Hn; subst; simpl; tauto|].
    destruct (String.eqb_spec preset "5Y");
      [exfalso; apply Hn; subst; simpl; tauto|].
    destruct (String.eqb_spec preset "10Y");
      [exfalso; apply Hn; subst; simpl; tauto|].
    destruct (String.eqb_spec preset "ALL");
      [exfalso; apply Hn; subst; simpl; tauto|].
    reflexivity.
Qed.

Lemma preset_ranges_witness :
  DateRangePicker.handlePresetRange Fixture.leapDay "5Y"
  = ({| DateRangePicker.year := 2019; DateRangePicker.month := 2;
        DateRangePicker.day := 1 |}, Fixture.leapDay) /\
  DateRangePicker.month
    (fst (DateRangePicker.handlePresetRange Fixture.summerDay "10Y")) = 7 /\
  DateRangePicker.handlePresetRange Fixture.summerDay "ALL"
  = (DateRangePicker.firstDay, Fixture.summerDay).
Proof.
  assert (Hsummer : DateRangePicker.valid Fixture.summerDay)
    by (unfold DateRangePicker.valid; cbn; lia).
  destruct (preset_ranges Fixture.summerDay Hsummer) as (Hback & Hall & _).
  split; [reflexivity|]. split; [|exact Hall].
  apply (Hback "10Y"%string 10).
  - simpl. tauto.
  - left. cbn. lia.
Defined.

(** ** The type select *)

Lemma NoDup_map_injective {A B : Type} (f : A -> B) (l : list A) (a b : A) :
  NoDup (map f l) -> In a l -> In b l -> f a = f b -> a = b.
Proof.
  induction l as [|x l IH]; simpl; intros Hnd Ha Hb Hf; [contradiction|].
  inversion Hnd as [|? ? Hx Hnd']; subst.
  destruct Ha as [<-|Ha]; destruct Hb as [<-|Hb]; try reflexivity.
  - exfalso. apply Hx. rewrite Hf. now apply in_map.
  - exfalso. apply Hx. rewrite <- Hf. now apply in_map.
  - now apply IH.
Qed.

(** X17: the select always has the option "all" to show, and a cleared
    selection or an option with an empty value selects "all".  Choosing any
    other option selects its value, and the select then shows the first
    option of that value in the list of options: the chosen option itself
    when no two options have the same value. *)
Theorem type_select_resolves (eventTypes : list EventTypeSelect.EventType) :
  EventTypeSelect.shown eventTypes "all"
  = Some {| EventTypeSelect.value := "all";
            EventTypeSelect.label := EventTypeSelect.AllEventTypes |} /\
  EventTypeSelect.handleTypeChange None = "all"%string /\
  (forall o, EventTypeSelect.value o = ""%string ->
             EventTypeSelect.handleTypeChange (Some o) = "all"%string) /\
  (forall o, In o (EventTypeSelect.typeOptions eventTypes) ->
     EventTypeSelect.value o <> ""%string ->
     EventTypeSelect.handleTypeChange (Some o) = EventTypeSelect.value o /\
     exists o' before after,
       EventTypeSelect.shown eventTypes (EventTypeSelect.handleTypeChange (Some o))
       = Some o' /\
       EventTypeSelect.value o' = EventTypeSelect.value o /\
       EventTypeSelect.typeOptions eventTypes = before ++ o' :: after /\
       (forall x, In x before -> EventTypeSelect.value x <> EventTypeSelect.value o) /\
       (NoDup (map EventTypeSelect.value (EventTypeSelect.typeOptions eventTypes)) ->
        o' = o)).
Proof.
  split; [reflexivity|]. split; [reflexivity|]. split.
  - intros o Ho. unfold EventTypeSelect.handleTypeChange. now rewrite Ho.
  - intros o Hin Hne.
    assert (Hh : EventTypeSelect.handleTypeChange (Some o) = EventTypeSelect.value o).
    { unfold EventTypeSelect.handleTypeChange.
      destruct (String.eqb_spec (EventTypeSelect.value o) ""); [contradiction|reflexivity]. }
    split; [exact Hh|]. rewrite Hh. unfold EventTypeSelect.shown.
    destruct (find_is_Some
                (fun opt => String.eqb (EventTypeSelect.value opt) (EventTypeSelect.value o))
                _ o Hin (String.eqb_refl _)) as [o' Ho'].
    destruct (find_split _ _ _ Ho') as (before & after & Hsplit & Hv & Hbefore).
    apply String.eqb_eq in Hv.
    exists o', before, after. split; [exact Ho'|]. split; [exact Hv|].
    split; [exact Hsplit|]. split.
    + intros x Hx Heq. apply Hbefore in Hx. apply String.eqb_neq in Hx.
      now apply Hx.
    + intros Hnd.
      apply (NoDup_map_injective EventTypeSelect.value _ o' o Hnd);
        [|exact Hin|exact Hv].
      rewrite Hsplit. apply in_or_app. right. now left.
Qed.

Lemma type_select_resolves_witness :
  exists o' before after,
    EventTypeSelect.shown Fixture.eventTypes
      (EventTypeSelect.handleTypeChange
         (Some {| EventTypeSelect.value := "Financial Crisis";
                  EventTypeSelect.label := EventTypeSelect.Counted "Financial Crisis" 2 |}))
    = Some o' /\
    EventTypeSelect.value o' = "Financial Crisis"%string /\
    EventTypeSelect.typeOptions Fixture.eventTypes = before ++ o' :: after /\
    (forall x, In x before -> EventTypeSelect.value x <> "Financial Crisis"%string) /\
    (NoDup (map EventTypeSelect.value (EventTypeSelect.typeOptions Fixture.eventTypes)) ->
     o' = {| EventTypeSelect.value := "Financial Crisis";
             EventTypeSelect.label := EventTypeSelect.Counted "Financial Crisis" 2 |}).
Proof.
  apply (proj2 (proj2 (proj2 (type_select_resolves Fixture.eventTypes)))
           {| EventTypeSelect.value := "Financial Crisis";
              EventTypeSelect.label := EventTypeSelect.Counted "Financial Crisis" 2 |}).
  - simpl. tauto.
  - discriminate.
Defined.

(** ** The ids of the timeline *)

Lemma mapFrom_ids {A B : Type} (f : A -> nat -> B) (g : B -> nat)
  (Hg : forall x i, g (f x i) = i) (l : list A) (i : nat) :
  map g (JS.mapFrom f i l) = seq i (List.length l).
Proof.
  revert i. induction l as [|x l IH]; simpl; intros i; [reflexivity|].
  now rewrite Hg, IH.
Qed.

(** X18: the ids of the timeline points are the numbers from 0 up to the
    number of events with an impact record, each once: no two bubbles
    share an id, so a selection marks one bubble. *)
Theorem timeline_ids_unique
  (events : list Event.t) (changePoints : list ChangePoint.t) :
  Permutation (map EventTimeline.id (EventTimeline.processed events changePoints))
    (seq 0 (List.length (filter Event.hasImpact events))) /\
  NoDup (map EventTimeline.id (EventTimeline.processed events changePoints)) /\
  forall p q,
    In p (EventTimeline.processed events changePoints) ->
    In q (EventTimeline.processed events changePoints) ->
    EventTimeline.id p = EventTimeline.id q -> p = q.
Proof.
  assert (Hperm : Permutation
            (map EventTimeline.id (EventTimeline.processed events changePoints))
            (seq 0 (List.length (filter Event.hasImpact events)))).
  { unfold EventTimeline.processed.
    rewrite (Permutation_map EventTimeline.id (sort_perm EventTimeline.compare _)).
    unfold JS.mapi. rewrite mapFrom_ids by reflexivity. apply Permutation_refl. }
  assert (Hnd : NoDup (map EventTimeline.id
                         (EventTimeline.processed events changePoints))).
  { apply (Permutation_NoDup (Permutation_sym Hperm)). apply seq_NoDup. }
  split; [exact Hperm|]. split; [exact Hnd|].
  intros p q Hp Hq Hid.
  now apply (NoDup_map_injective EventTimeline.id _ p q Hnd).
Qed.

(** ** The table and the timeline *)

Lemma processed_point (events : list Event.t) (changePoints : list ChangePoint.t)
  (p : EventTimeline.Point) :
  In p (EventTimeline.processed events changePoints) ->
  exists n, p = EventTimeline.point changePoints (EventTimeline.event p) n.
Proof.
  unfold EventTimeline.processed, JS.mapi. rewrite sort_In.
  generalize 0%nat. generalize (filter Event.hasImpact events).
  induction l as [|e l IH]; simpl; intros i Hp; [contradiction|].
  destruct Hp as [<-|Hp]; [now exists i | exact (IH _ Hp)].
Qed.

